(** * EchoViva anti-cheat monitor ([utils/security.js])

    A shallow embedding of the browser script and of the part of the browser
    it talks to: the window and document properties it reads, the DOM
    elements it creates, the listener and timer registries it fills, and the
    closure that holds its [let] variables.

    Modelling conventions.
    - JavaScript numbers that hold integers (the counter, the window
      dimensions, the clock in milliseconds) are [Z].  Number arithmetic is
      exact on integers of magnitude below 2^53, so the model is exact for
      every run that stays in that range.
    - A DOM element is a heap cell: [elements] is the heap, an element
      reference is an index into that heap, [body] lists the children of
      [document.body] by reference.  An element's [style] object is a finite
      map from property names to values.
    - The variables declared inside the IIFE live in a closure record;
      [closures] is the heap of closures and every registered callback names
      the closure it captured.
    - [document.body] exists whenever a handler runs.
    - [warnings] is history (ghost) state: the time and message of every call
      of [showWarning].  No handler reads it. *)

From stdpp Require Import gmap strings list fin_maps.
From Stdlib Require Import ZArith Lia.

(** ** Browser state *)

Record Element := mkElement {
  tagName : string;
  textContent : string;
  style : gmap string string
}.

(** The four function values the script hands to the browser, each with the
    closure it captured. *)
Inductive Callback :=
| OnVisibilityChange (c : nat)   (* document.addEventListener("visibilitychange", ...) *)
| OnBlur (c : nat)               (* window.addEventListener("blur", ...) *)
| DevtoolsPoll (c : nat)         (* setInterval(..., 1000) *)
| FadeOut (c : nat).             (* setTimeout(..., 4000) in showWarning *)

Record Interval := mkInterval {
  iv_due : Z;
  iv_period : Z;
  iv_callback : Callback
}.

Record Page := mkPage {
  __ECHO_VIVA_SECURITY_LOADED__ : bool;  (* a property of window *)
  cheatCountAccessor : option nat;     (* window.getEchoVivaCheatCount, by closure *)
  outerWidth : Z;
  innerWidth : Z;
  outerHeight : Z;
  innerHeight : Z;
  hidden : bool;                       (* document.hidden *)
  elements : list Element;
  body : list nat;
  visibilityListeners : list Callback;
  blurListeners : list Callback;
  now : Z;                             (* milliseconds *)
  timeouts : list (Z * Callback);      (* pending setTimeout tasks, with due time *)
  intervals : list Interval;
  console : list string;
  warnings : list (Z * string)
}.

Definition set_LOADED (b : bool) (p : Page) : Page :=
  mkPage b (cheatCountAccessor p) (outerWidth p) (innerWidth p) (outerHeight p)
    (innerHeight p) (hidden p) (elements p) (body p) (visibilityListeners p)
    (blurListeners p) (now p) (timeouts p) (intervals p) (console p) (warnings p).

Definition set_cheatCountAccessor (a : option nat) (p : Page) : Page :=
  mkPage (__ECHO_VIVA_SECURITY_LOADED__ p) a (outerWidth p) (innerWidth p) (outerHeight p)
    (innerHeight p) (hidden p) (elements p) (body p) (visibilityListeners p)
    (blurListeners p) (now p) (timeouts p) (intervals p) (console p) (warnings p).

Definition set_dimensions (ow iw oh ih : Z) (p : Page) : Page :=
  mkPage (__ECHO_VIVA_SECURITY_LOADED__ p) (cheatCountAccessor p) ow iw oh ih (hidden p) (elements p)
    (body p) (visibilityListeners p) (blurListeners p) (now p) (timeouts p)
    (intervals p) (console p) (warnings p).

Definition set_hidden (h : bool) (p : Page) : Page :=
  mkPage (__ECHO_VIVA_SECURITY_LOADED__ p) (cheatCountAccessor p) (outerWidth p) (innerWidth p)
    (outerHeight p) (innerHeight p) h (elements p) (body p)
    (visibilityListeners p) (blurListeners p) (now p) (timeouts p)
    (intervals p) (console p) (warnings p).

Definition set_elements (f : list Element -> list Element) (p : Page) : Page :=
  mkPage (__ECHO_VIVA_SECURITY_LOADED__ p) (cheatCountAccessor p) (outerWidth p) (innerWidth p)
    (outerHeight p) (innerHeight p) (hidden p) (f (elements p)) (body p)
    (visibilityListeners p) (blurListeners p) (now p) (timeouts p)
    (intervals p) (console p) (warnings p).

Definition set_body (f : list nat -> list nat) (p : Page) : Page :=
  mkPage (__ECHO_VIVA_SECURITY_LOADED__ p) (cheatCountAccessor p) (outerWidth p) (innerWidth p)
    (outerHeight p) (innerHeight p) (hidden p) (elements p) (f (body p))
    (visibilityListeners p) (blurListeners p) (now p) (timeouts p)
    (intervals p) (console p) (warnings p).

Definition set_visibilityListeners (f : list Callback -> list Callback) (p : Page) : Page :=
  mkPage (__ECHO_VIVA_SECURITY_LOADED__ p) (cheatCountAccessor p) (outerWidth p) (innerWidth p)
    (outerHeight p) (innerHeight p) (hidden p) (elements p) (body p)
    (f (visibilityListeners p)) (blurListeners p) (now p) (timeouts p)
    (intervals p) (console p) (warnings p).

Definition set_blurListeners (f : list Callback -> list Callback) (p : Page) : Page :=
  mkPage (__ECHO_VIVA_SECURITY_LOADED__ p) (cheatCountAccessor p) (outerWidth p) (innerWidth p)
    (outerHeight p) (innerHeight p) (hidden p) (elements p) (body p)
    (visibilityListeners p) (f (blurListeners p)) (now p) (timeouts p)
    (intervals p) (console p) (warnings p).

Definition set_now (t : Z) (p : Page) : Page :=
  mkPage (__ECHO_VIVA_SECURITY_LOADED__ p) (cheatCountAccessor p) (outerWidth p) (innerWidth p)
    (outerHeight p) (innerHeight p) (hidden p) (elements p) (body p)
    (visibilityListeners p) (blurListeners p) t (timeouts p)
    (intervals p) (console p) (warnings p).

Definition set_timeouts (f : list (Z * Callback) -> list (Z * Callback)) (p : Page) : Page :=
  mkPage (__ECHO_VIVA_SECURITY_LOADED__ p) (cheatCountAccessor p) (outerWidth p) (innerWidth p)
    (outerHeight p) (innerHeight p) (hidden p) (elements p) (body p)
    (visibilityListeners p) (blurListeners p) (now p) (f (timeouts p))
    (intervals p) (console p) (warnings p).

Definition set_intervals (f : list Interval -> list Interval) (p : Page) : Page :=
  mkPage (__ECHO_VIVA_SECURITY_LOADED__ p) (cheatCountAccessor p) (outerWidth p) (innerWidth p)
    (outerHeight p) (innerHeight p) (hidden p) (elements p) (body p)
    (visibilityListeners p) (blurListeners p) (now p) (timeouts p)
    (f (intervals p)) (console p) (warnings p).

Definition set_console (f : list string -> list string) (p : Page) : Page :=
  mkPage (__ECHO_VIVA_SECURITY_LOADED__ p) (cheatCountAccessor p) (outerWidth p) (innerWidth p)
    (outerHeight p) (innerHeight p) (hidden p) (elements p) (body p)
    (visibilityListeners p) (blurListeners p) (now p) (timeouts p)
    (intervals p) (f (console p)) (warnings p).

Definition set_warnings (f : list (Z * string) -> list (Z * string)) (p : Page) : Page :=
  mkPage (__ECHO_VIVA_SECURITY_LOADED__ p) (cheatCountAccessor p) (outerWidth p) (innerWidth p)
    (outerHeight p) (innerHeight p) (hidden p) (elements p) (body p)
    (visibilityListeners p) (blurListeners p) (now p) (timeouts p)
    (intervals p) (console p) (f (warnings p)).

(** *** Browser primitives used by the script *)

(** [document.createElement(tag)]: a new element with no text and no inline
    style; its reference is the next free heap index. *)
Definition createElement (tag : string) (p : Page) : Page :=
  set_elements (fun els => els ++ [mkElement tag "" ∅]) p.

(** [el.style.<prop> = value] *)
Definition restyle (prop value : string) (e : Element) : Element :=
  mkElement (tagName e) (textContent e) (<[prop := value]> (style e)).

Definition set_style (el : nat) (prop value : string) (p : Page) : Page :=
  set_elements (alter (restyle prop value) el) p.

(** [el.textContent = text] *)
Definition retext (text : string) (e : Element) : Element :=
  mkElement (tagName e) text (style e).

Definition set_textContent (el : nat) (text : string) (p : Page) : Page :=
  set_elements (alter (retext text) el) p.

(** [document.body.appendChild(el)] *)
Definition appendChild (el : nat) (p : Page) : Page :=
  set_body (fun kids => kids ++ [el]) p.

(** [setTimeout(cb, delay)] *)
Definition setTimeout (cb : Callback) (delay : Z) (p : Page) : Page :=
  set_timeouts (fun q => q ++ [((now p + delay)%Z, cb)]) p.

(** [setInterval(cb, period)] *)
Definition setInterval (cb : Callback) (period : Z) (p : Page) : Page :=
  set_intervals (fun q => q ++ [mkInterval (now p + period)%Z period cb]) p.

(** [console.log(line)] *)
Definition console_log (line : string) (p : Page) : Page :=
  set_console (fun out => out ++ [line]) p.

(** ** The world: the page and the closures created by the script *)

Record World (M : Type) := mkWorld {
  page : Page;
  closures : list M
}.
Arguments mkWorld {M} _ _.
Arguments page {M} _.
Arguments closures {M} _.

Definition on_page {M} (f : Page -> Page) (w : World M) : World M :=
  mkWorld (f (page w)) (closures w).

Definition on_closure {M} (c : nat) (f : M -> M) (w : World M) : World M :=
  mkWorld (page w) (alter f c (closures w)).

(** ** The script *)

Record Monitor := mkMonitor {
  warningShown : bool;
  tabSwitchCount : Z;
  cheatAlert : option nat;
  devtoolsOpen : bool
}.

Definition set_warningShown (b : bool) (m : Monitor) : Monitor :=
  mkMonitor b (tabSwitchCount m) (cheatAlert m) (devtoolsOpen m).
Definition incr_tabSwitchCount (m : Monitor) : Monitor :=
  mkMonitor (warningShown m) (tabSwitchCount m + 1)%Z (cheatAlert m) (devtoolsOpen m).
Definition set_cheatAlert (r : option nat) (m : Monitor) : Monitor :=
  mkMonitor (warningShown m) (tabSwitchCount m) r (devtoolsOpen m).
Definition set_devtoolsOpen (b : bool) (m : Monitor) : Monitor :=
  mkMonitor (warningShown m) (tabSwitchCount m) (cheatAlert m) b.

Definition MSG_TAB : string :=
  "⚠️ Tab switch detected! Please stay on this tab during the viva.".
Definition MSG_FOCUS : string :=
  "🚫 Focus lost! Please remain in the viva window.".
Definition MSG_DEVTOOLS : string :=
  "⚠️ Developer tools detected! Please close them to continue viva.".

Definition threshold : Z := 160.
Definition FADE_DELAY : Z := 4000.
Definition POLL_PERIOD : Z := 1000.

(** The inline style given to a freshly created notice, in source order. *)
Definition style_notice (el : nat) (p : Page) : Page :=
  let p := set_style el "position" "fixed" p in
  let p := set_style el "top" "10px" p in
  let p := set_style el "right" "10px" p in
  let p := set_style el "background"
             "linear-gradient(135deg, rgba(255, 0, 0, 0.8), rgba(255, 100, 100, 0.8))" p in
  let p := set_style el "color" "white" p in
  let p := set_style el "padding" "12px 16px" p in
  let p := set_style el "fontSize" "14px" p in
  let p := set_style el "borderRadius" "8px" p in
  let p := set_style el "zIndex" "999999" p in
  let p := set_style el "boxShadow" "0 0 12px rgba(0,0,0,0.5)" p in
  let p := set_style el "fontFamily" "Poppins, sans-serif" p in
  set_style el "transition" "opacity 0.4s ease" p.

(** [showWarning(message)], run in closure [c].  The first step records the
    call in the history [warnings]; the rest is the source. *)
Definition showWarning (c : nat) (message : string) (w : World Monitor) : World Monitor :=
  match closures w !! c with
  | None => w
  | Some m =>
      let w := on_page (set_warnings (fun h => h ++ [(now (page w), message)])) w in
      let w :=
        match cheatAlert m with
        | None =>
            let el := length (elements (page w)) in
            let w := on_page (createElement "div") w in
            let w := on_closure c (set_cheatAlert (Some el)) w in
            let w := on_page (style_notice el) w in
            let w := on_page (set_textContent el message) w in
            on_page (appendChild el) w
        | Some el =>
            let w := on_page (set_textContent el message) w in
            on_page (set_style el "opacity" "1") w
        end in
      on_page (setTimeout (FadeOut c) FADE_DELAY) w
  end.

(** The function passed to [setTimeout] by [showWarning]. *)
Definition fadeOut (c : nat) (w : World Monitor) : World Monitor :=
  match closures w !! c with
  | Some m =>
      match cheatAlert m with
      | Some el => on_page (set_style el "opacity" "0") w
      | None => w
      end
  | None => w
  end.

(** The [visibilitychange] listener. *)
Definition onVisibilityChange (c : nat) (w : World Monitor) : World Monitor :=
  if hidden (page w) then
    let w := on_closure c incr_tabSwitchCount w in
    let w := on_closure c (set_warningShown true) w in
    showWarning c MSG_TAB w
  else w.

(** The [blur] listener. *)
Definition onBlur (c : nat) (w : World Monitor) : World Monitor :=
  let w := on_page (console_log "Window lost focus") w in
  let w := on_closure c incr_tabSwitchCount w in
  let w := on_closure c (set_warningShown true) w in
  showWarning c MSG_FOCUS w.

(** The function passed to [setInterval]. *)
Definition devtoolsPoll (c : nat) (w : World Monitor) : World Monitor :=
  let widthDiff := (outerWidth (page w) - innerWidth (page w) >? threshold)%Z in
  let heightDiff := (outerHeight (page w) - innerHeight (page w) >? threshold)%Z in
  if widthDiff || heightDiff then
    match closures w !! c with
    | Some m =>
        if negb (devtoolsOpen m) then
          let w := on_closure c (set_devtoolsOpen true) w in
          showWarning c MSG_DEVTOOLS w
        else w
    | None => w
    end
  else on_closure c (set_devtoolsOpen false) w.

Definition EMPTY_MONITOR : Monitor := mkMonitor false 0%Z None false.

(** The IIFE: one evaluation of the script. *)
Definition load (w : World Monitor) : World Monitor :=
  let w := on_page (console_log "SECURITY loaded!") w in
  if __ECHO_VIVA_SECURITY_LOADED__ (page w) then w
  else
    let w := on_page (set_LOADED true) w in
    let c := length (closures w) in
    let w := mkWorld (page w) (closures w ++ [EMPTY_MONITOR]) in
    let w := on_page (set_visibilityListeners (fun l => l ++ [OnVisibilityChange c])) w in
    let w := on_page (set_blurListeners (fun l => l ++ [OnBlur c])) w in
    let w := on_page (setInterval (DevtoolsPoll c) POLL_PERIOD) w in
    on_page (set_cheatCountAccessor (Some c)) w.

(** [window.getEchoVivaCheatCount()]; [None] while the property is undefined. *)
Definition getEchoVivaCheatCount (w : World Monitor) : option Z :=
  match cheatCountAccessor (page w) with
  | Some c =>
      match closures w !! c with
      | Some m => Some (tabSwitchCount m)
      | None => None
      end
  | None => None
  end.

(** ** The event loop

    The browser side of the model, for any script given by what its
    callbacks do ([run_callback]) and what evaluating it does ([inject]). *)

Inductive Event :=
| Inject                             (* the script is evaluated *)
| VisibilityChange (h : bool)        (* document.hidden becomes [h]; "visibilitychange" fires *)
| Blur                               (* "blur" fires on window *)
| Resize (ow iw oh ih : Z)           (* the window takes these dimensions *)
| Elapse (ms : N).                   (* [ms] milliseconds pass *)

Definition rearm (iv : Interval) : Interval :=
  mkInterval (iv_due iv + iv_period iv)%Z (iv_period iv) (iv_callback iv).

Section EventLoop.
Context {M : Type}.
Variable run_callback : Callback -> World M -> World M.
Variable inject : World M -> World M.

Definition dispatch (cbs : list Callback) (w : World M) : World M :=
  foldl (fun w cb => run_callback cb w) w cbs.

(** Timeout tasks whose time has come run once, in the order they were
    set, and leave the queue. *)
Definition run_timeouts (w : World M) : World M :=
  let t := now (page w) in
  let due := filter (fun e => (e.1 ≤ t)%Z) (timeouts (page w)) in
  let w := on_page (set_timeouts (filter (fun e => ¬ (e.1 ≤ t)%Z))) w in
  dispatch (due.*2) w.

(** Interval tasks whose time has come run and are armed again. *)
Definition run_intervals (w : World M) : World M :=
  let t := now (page w) in
  let due := filter (fun iv => (iv_due iv ≤ t)%Z) (intervals (page w)) in
  let w := on_page (set_intervals
              (fmap (fun iv => if decide (iv_due iv ≤ t)%Z then rearm iv else iv))) w in
  dispatch (iv_callback <$> due) w.

(** One millisecond passes; timeouts due at an instant run before the
    intervals due at that instant. *)
Definition millisecond (w : World M) : World M :=
  let w := on_page (fun p => set_now (now p + 1)%Z p) w in
  run_intervals (run_timeouts w).

Definition elapse (ms : N) (w : World M) : World M :=
  N.iter ms millisecond w.

Definition step (e : Event) (w : World M) : World M :=
  match e with
  | Inject => inject w
  | VisibilityChange h =>
      let w := on_page (set_hidden h) w in
      dispatch (visibilityListeners (page w)) w
  | Blur => dispatch (blurListeners (page w)) w
  | Resize ow iw oh ih => on_page (set_dimensions ow iw oh ih) w
  | Elapse ms => elapse ms w
  end.

Definition run (evs : list Event) (w : World M) : World M :=
  foldl (fun w e => step e w) w evs.
End EventLoop.

(** ** The script in the browser *)

Definition run_callback (cb : Callback) (w : World Monitor) : World Monitor :=
  match cb with
  | OnVisibilityChange c => onVisibilityChange c w
  | OnBlur c => onBlur c w
  | DevtoolsPoll c => devtoolsPoll c w
  | FadeOut c => fadeOut c w
  end.

Definition browser_step : Event -> World Monitor -> World Monitor :=
  step run_callback load.

Definition browser_run : list Event -> World Monitor -> World Monitor :=
  run run_callback load.

(** A page the script has not been injected into: nothing of the script is
    there yet; the host page's own elements, dimensions and clock are
    arbitrary. *)
Record pristine (w : World Monitor) : Prop := mkPristine {
  pr_warnings : warnings (page w) = [];
  pr_flag : __ECHO_VIVA_SECURITY_LOADED__ (page w) = false;
  pr_accessor : cheatCountAccessor (page w) = None;
  pr_visibility : visibilityListeners (page w) = [];
  pr_blur : blurListeners (page w) = [];
  pr_timeouts : timeouts (page w) = [];
  pr_intervals : intervals (page w) = [];
  pr_closures : closures w = []
}.

Definition blank_page : Page :=
  mkPage false None 1280 1280 800 720 false [] [] [] [] 0 [] [] [] [].

Definition blank : World Monitor := mkWorld blank_page [].

(** ** Observations and the notions the properties are stated with *)

(** What is on screen: the notice is the element [cheatAlert] refers to. *)
Definition notice (w : World Monitor) : option Element :=
  match closures w !! 0 with
  | Some m =>
      match cheatAlert m with
      | Some el => elements (page w) !! el
      | None => None
      end
  | None => None
  end.

Definition notice_text (w : World Monitor) : option string :=
  textContent <$> notice w.

Definition notice_opacity (w : World Monitor) : option string :=
  match notice w with
  | Some e => style e !! "opacity"
  | None => None
  end.

(** The closure of the running monitor and its counter. *)
Definition monitor (w : World Monitor) : Monitor :=
  default EMPTY_MONITOR (closures w !! 0).

Definition counter (w : World Monitor) : Z := tabSwitchCount (monitor w).

Record installed (w : World Monitor) : Prop := mkInstalled {
  in_flag : __ECHO_VIVA_SECURITY_LOADED__ (page w) = true;
  in_accessor : cheatCountAccessor (page w) = Some 0;
  in_visibility : visibilityListeners (page w) = [OnVisibilityChange 0];
  in_blur : blurListeners (page w) = [OnBlur 0];
  in_intervals :
    exists t, intervals (page w) = [mkInterval t POLL_PERIOD (DevtoolsPoll 0)];
  in_timeouts : Forall (fun e => e.2 = FadeOut 0) (timeouts (page w));
  in_closures : length (closures w) = 1;
  in_alert : forall el,
    cheatAlert (monitor w) = Some el -> el < length (elements (page w))
}.

(** Every callback of the installed monitor is one of its own four. *)
Definition own (cb : Callback) : Prop :=
  match cb with
  | OnVisibilityChange c | OnBlur c | DevtoolsPoll c | FadeOut c => c = 0
  end.

Definition view (w : World Monitor) :=
  (closures w, elements (page w), body (page w), warnings (page w)).

Definition stable (P : World Monitor -> Prop) : Prop :=
  forall w w', view w' = view w -> P w -> P w'.

Definition preserves (P : World Monitor -> Prop) (cb : Callback) : Prop :=
  own cb /\ forall w, installed w -> P w -> P (run_callback cb w).

(** The events the counter counts: a change of visibility to hidden, and a
    loss of focus. *)
Definition suspicious (e : Event) : bool :=
  match e with
  | VisibilityChange true | Blur => true
  | _ => false
  end.

(** ** The devtools heuristic, tick by tick *)

Record Dimensions := mkDimensions {
  d_outerWidth : Z;
  d_innerWidth : Z;
  d_outerHeight : Z;
  d_innerHeight : Z
}.

Definition width_delta (d : Dimensions) : Z := d_outerWidth d - d_innerWidth d.
Definition height_delta (d : Dimensions) : Z := d_outerHeight d - d_innerHeight d.

(** Both deltas below the threshold; a delta above it on either axis. *)
Definition quiet (d : Dimensions) : Prop :=
  (width_delta d < 160)%Z /\ (height_delta d < 160)%Z.
Definition breached (d : Dimensions) : Prop :=
  (width_delta d > 160)%Z \/ (height_delta d > 160)%Z.

(** The test [devtoolsPoll] makes, as a function of the dimensions. *)
Definition breach (d : Dimensions) : bool :=
  (width_delta d >? threshold)%Z || (height_delta d >? threshold)%Z.

(** One tick of the interval while the window has dimensions [d]. *)
Definition poll_at (d : Dimensions) (w : World Monitor) : World Monitor :=
  devtoolsPoll 0
    (on_page (set_dimensions (d_outerWidth d) (d_innerWidth d)
                             (d_outerHeight d) (d_innerHeight d)) w).

Definition polls (ds : list Dimensions) (w : World Monitor) : World Monitor :=
  foldl (fun w d => poll_at d w) w ds.

(** The number of ticks that breach while the flag is clear, for the
    successive values of the flag. *)
Fixpoint rising (flag : bool) (bs : list bool) : nat :=
  match bs with
  | [] => 0
  | b :: bs => (if b && negb flag then 1 else 0) + rising b bs
  end.

(** The flag after a run of ticks: what the last tick saw. *)
Fixpoint final (flag : bool) (bs : list bool) : bool :=
  match bs with
  | [] => flag
  | b :: bs => final b bs
  end.

(** ** The notice *)

(** The element [style_notice] leaves behind. *)
Definition notice_styled (e : Element) : Element :=
  restyle "transition" "opacity 0.4s ease"
    (restyle "fontFamily" "Poppins, sans-serif"
       (restyle "boxShadow" "0 0 12px rgba(0,0,0,0.5)"
          (restyle "zIndex" "999999"
             (restyle "borderRadius" "8px"
                (restyle "fontSize" "14px"
                   (restyle "padding" "12px 16px"
                      (restyle "color" "white"
                         (restyle "background"
                            "linear-gradient(135deg, rgba(255, 0, 0, 0.8), rgba(255, 100, 100, 0.8))"
                            (restyle "right" "10px"
                               (restyle "top" "10px"
                                  (restyle "position" "fixed" e))))))))))).

Definition BLANK_DIV : Element := mkElement "div" "" ∅.

Definition showWarnings (msgs : list string) (w : World Monitor) : World Monitor :=
  foldl (fun w msg => showWarning 0 msg w) w msgs.

(** The last message passed to [showWarning], if any. *)
Definition last_message (w : World Monitor) : option string :=
  snd <$> last (warnings (page w)).


(** ** One notice element

    [els0] and [body0] are the elements and the children of [body] of the
    host page before the script ran.  Either the monitor holds no reference
    and the DOM is the host's, or it holds a reference to the one element
    the script has added: the element right after the host's in the heap,
    and the child appended to [body]. *)
Definition one_notice (els0 : list Element) (body0 : list nat)
    (w : World Monitor) : Prop :=
  match cheatAlert (monitor w) with
  | None => elements (page w) = els0 /\ body (page w) = body0
  | Some el =>
      el = length els0
      /\ take (length els0) (elements (page w)) = els0
      /\ length (elements (page w)) = S (length els0)
      /\ body (page w) = body0 ++ [el]
  end.

(** The style properties [showWarning] sets when it creates the notice. *)
Definition CREATION_STYLE : list (string * string) :=
  [ ("position", "fixed");
    ("top", "10px");
    ("right", "10px");
    ("background",
     "linear-gradient(135deg, rgba(255, 0, 0, 0.8), rgba(255, 100, 100, 0.8))");
    ("color", "white");
    ("padding", "12px 16px");
    ("fontSize", "14px");
    ("borderRadius", "8px");
    ("zIndex", "999999");
    ("boxShadow", "0 0 12px rgba(0,0,0,0.5)");
    ("fontFamily", "Poppins, sans-serif");
    ("transition", "opacity 0.4s ease") ].

Definition creation_styled (e : Element) : Prop :=
  Forall (fun kv => style e !! kv.1 = Some kv.2) CREATION_STYLE.

(** ** The script without [warningShown]

  The same script with the declaration of [warningShown] and the two
  assignments to it deleted; everything else is line for line the
  source. *)
Module NoFlag.

Record Monitor := mkMonitor {
  tabSwitchCount : Z;
  cheatAlert : option nat;
  devtoolsOpen : bool
}.

Definition incr_tabSwitchCount (m : Monitor) : Monitor :=
  mkMonitor (tabSwitchCount m + 1)%Z (cheatAlert m) (devtoolsOpen m).
Definition set_cheatAlert (r : option nat) (m : Monitor) : Monitor :=
  mkMonitor (tabSwitchCount m) r (devtoolsOpen m).
Definition set_devtoolsOpen (b : bool) (m : Monitor) : Monitor :=
  mkMonitor (tabSwitchCount m) (cheatAlert m) b.

Definition showWarning (c : nat) (message : string) (w : World Monitor) : World Monitor :=
  match closures w !! c with
  | None => w
  | Some m =>
      let w := on_page (set_warnings (fun h => h ++ [(now (page w), message)])) w in
      let w :=
        match cheatAlert m with
        | None =>
            let el := length (elements (page w)) in
            let w := on_page (createElement "div") w in
            let w := on_closure c (set_cheatAlert (Some el)) w in
            let w := on_page (style_notice el) w in
            let w := on_page (set_textContent el message) w in
            on_page (appendChild el) w
        | Some el =>
            let w := on_page (set_textContent el message) w in
            on_page (set_style el "opacity" "1") w
        end in
      on_page (setTimeout (FadeOut c) FADE_DELAY) w
  end.

Definition fadeOut (c : nat) (w : World Monitor) : World Monitor :=
  match closures w !! c with
  | Some m =>
      match cheatAlert m with
      | Some el => on_page (set_style el "opacity" "0") w
      | None => w
      end
  | None => w
  end.

Definition onVisibilityChange (c : nat) (w : World Monitor) : World Monitor :=
  if hidden (page w) then
    let w := on_closure c incr_tabSwitchCount w in
    showWarning c MSG_TAB w
  else w.

Definition onBlur (c : nat) (w : World Monitor) : World Monitor :=
  let w := on_page (console_log "Window lost focus") w in
  let w := on_closure c incr_tabSwitchCount w in
  showWarning c MSG_FOCUS w.

Definition devtoolsPoll (c : nat) (w : World Monitor) : World Monitor :=
  let widthDiff := (outerWidth (page w) - innerWidth (page w) >? threshold)%Z in
  let heightDiff := (outerHeight (page w) - innerHeight (page w) >? threshold)%Z in
  if widthDiff || heightDiff then
    match closures w !! c with
    | Some m =>
        if negb (devtoolsOpen m) then
          let w := on_closure c (set_devtoolsOpen true) w in
          showWarning c MSG_DEVTOOLS w
        else w
    | None => w
    end
  else on_closure c (set_devtoolsOpen false) w.

Definition EMPTY_MONITOR : Monitor := mkMonitor 0%Z None false.

Definition load (w : World Monitor) : World Monitor :=
  let w := on_page (console_log "SECURITY loaded!") w in
  if __ECHO_VIVA_SECURITY_LOADED__ (page w) then w
  else
    let w := on_page (set_LOADED true) w in
    let c := length (closures w) in
    let w := mkWorld (page w) (closures w ++ [EMPTY_MONITOR]) in
    let w := on_page (set_visibilityListeners (fun l => l ++ [OnVisibilityChange c])) w in
    let w := on_page (set_blurListeners (fun l => l ++ [OnBlur c])) w in
    let w := on_page (setInterval (DevtoolsPoll c) POLL_PERIOD) w in
    on_page (set_cheatCountAccessor (Some c)) w.

Definition getEchoVivaCheatCount (w : World Monitor) : option Z :=
  match cheatCountAccessor (page w) with
  | Some c =>
      match closures w !! c with
      | Some m => Some (tabSwitchCount m)
      | None => None
      end
  | None => None
  end.

Definition run_callback (cb : Callback) (w : World Monitor) : World Monitor :=
  match cb with
  | OnVisibilityChange c => onVisibilityChange c w
  | OnBlur c => onBlur c w
  | DevtoolsPoll c => devtoolsPoll c w
  | FadeOut c => fadeOut c w
  end.

Definition browser_run : list Event -> World Monitor -> World Monitor :=
  run run_callback load.

End NoFlag.

(** *** Forgetting the flag *)

Definition forget (m : Monitor) : NoFlag.Monitor :=
  NoFlag.mkMonitor (tabSwitchCount m) (cheatAlert m) (devtoolsOpen m).

Definition erase (w : World Monitor) : World NoFlag.Monitor :=
  mkWorld (page w) (forget <$> closures w).

(** ** The timers in the event loop *)

Definition dimensions (p : Page) : Dimensions :=
  mkDimensions (outerWidth p) (innerWidth p) (outerHeight p) (innerHeight p).

(** What the poll reads and writes, and what decides when it runs. *)
Definition poll_view (w : World Monitor) :=
  (closures w, warnings (page w), intervals (page w), dimensions (page w)).

(** The interval is armed for [due], which is still ahead. *)
Definition armed (due : Z) (w : World Monitor) : Prop :=
  intervals (page w) = [mkInterval due POLL_PERIOD (DevtoolsPoll 0)].

(** A run of whole seconds: during the [k]-th second the window has the
    [k]-th dimensions. *)
Definition resize (d : Dimensions) : Event :=
  Resize (d_outerWidth d) (d_innerWidth d) (d_outerHeight d) (d_innerHeight d).

Fixpoint seconds (ds : list Dimensions) : list Event :=
  match ds with
  | [] => []
  | d :: ds => resize d :: Elapse 1000 :: seconds ds
  end.



(** ** Further notions: what each event logs and shows *)

(** The console line an event causes once the script is installed. *)
Definition log_of (e : Event) : list string :=
  match e with
  | Inject => ["SECURITY loaded!"]
  | Blur => ["Window lost focus"]
  | _ => []
  end.

(** The warning a counted event shows. *)
Definition message_of (e : Event) : list string :=
  match e with
  | VisibilityChange true => [MSG_TAB]
  | Blur => [MSG_FOCUS]
  | _ => []
  end.

(** The messages shown so far, devtools warnings left out. *)
Definition focus_messages (w : World Monitor) : list string :=
  filter (fun msg => msg <> MSG_DEVTOOLS) (warnings (page w)).*2.

(** The inline style of the notice: the creation style, and the opacity a
    reuse or a fade has given it, if any. *)
Definition NOTICE_STYLE : gmap string string := style (notice_styled BLANK_DIV).

Definition notice_style (opacity : option string) : gmap string string :=
  match opacity with
  | Some v => <["opacity" := v]> NOTICE_STYLE
  | None => NOTICE_STYLE
  end.

Definition well_formed_notice (e : Element) : Prop :=
  tagName e = "div"
  /\ exists o, (o = None \/ o = Some "0" \/ o = Some "1")
              /\ style e = notice_style o.

(** The interval runs on the schedule fixed at load time [t0]: it is armed
    for an instant at most one period ahead, a whole number of periods
    after [t0]. *)
Definition on_schedule (t0 : Z) (w : World Monitor) : Prop :=
  exists due,
    armed due w
    /\ (now (page w) < due <= now (page w) + POLL_PERIOD)%Z
    /\ ((due - t0) mod POLL_PERIOD = 0)%Z.

(** ** Further notions: the fades that are pending and those that have run *)

(** The warnings shown less than [FADE_DELAY] ago. *)
Definition recent (w : World Monitor) : list (Z * string) :=
  filter (fun e => (now (page w) < e.1 + FADE_DELAY)%Z) (warnings (page w)).

(** The timeout a warning leaves in the queue. *)
Definition fade_of (e : Z * string) : Z * Callback :=
  ((e.1 + FADE_DELAY)%Z, FadeOut 0).

(** The queue of timeouts holds the fades of the recent warnings, in order,
    and no warning is from the future. *)
Definition fades_pending (w : World Monitor) : Prop :=
  timeouts (page w) = fade_of <$> recent w
  /\ Forall (fun e => (e.1 <= now (page w))%Z) (warnings (page w)).

(** The fade of some warning has come due after the latest warning was
    shown. *)
Definition fade_fired (w : World Monitor) : Prop :=
  exists t msg tl msgl,
    (t, msg) ∈ warnings (page w)
    /\ last (warnings (page w)) = Some (tl, msgl)
    /\ (t + FADE_DELAY <= now (page w))%Z
    /\ (tl < t + FADE_DELAY)%Z.

(** What decides whether the notice is faded: the queue of fades, the notice
    with the latest message, and the opacity 0 exactly when a fade has run
    since the latest warning. *)
Definition fade_state (w : World Monitor) : Prop :=
  fades_pending w
  /\ notice_text w = last_message w
  /\ (notice_opacity w = Some "0" <-> fade_fired w).

(** * Properties *)

(** ** The installed monitor: what holds from the first evaluation on *)

Lemma installed_shape w :
  installed w -> exists p m, w = mkWorld p [m].
Proof.
  intros H. destruct w as [p cl]. pose proof (in_closures _ H) as Hl.
  simpl in Hl. destruct cl as [|m [|m' cl]]; try discriminate.
  by exists p, m.
Qed.

Ltac shape H :=
  let p := fresh "p" in
  let m := fresh "m" in
  let E := fresh "E" in
  destruct (installed_shape _ H) as (p & m & E); subst.

Lemma load_installed w : pristine w -> installed (load w).
Proof.
  intros [Hg Hf Ha Hv Hb Ht Hi Hc]. destruct w as [p cl]. simpl in *. subst cl.
  unfold load. simpl. rewrite Hf. simpl.
  constructor; simpl; rewrite ?Hv, ?Hb, ?Hi, ?Ht; try done.
  by eexists.
Qed.

(** Changing one style property or the text of an element keeps the heap's
    size. *)
Lemma length_set_style el k v p :
  length (elements (set_style el k v p)) = length (elements p).
Proof. simpl. by rewrite length_alter. Qed.

Lemma length_set_textContent el t p :
  length (elements (set_textContent el t p)) = length (elements p).
Proof. simpl. by rewrite length_alter. Qed.

Lemma length_style_notice el p :
  length (elements (style_notice el p)) = length (elements p).
Proof. unfold style_notice. by rewrite !length_set_style. Qed.

Lemma showWarning_installed msg w : installed w -> installed (showWarning 0 msg w).
Proof.
  intros H. shape H. destruct H as [Hf Ha Hv Hb Hi Ht Hc Hal]. simpl in *.
  unfold showWarning. simpl. destruct (cheatAlert m) as [el|] eqn:Hm.
  - constructor; simpl; try done.
    + apply Forall_app. split; [done | by constructor].
    + unfold monitor. simpl. intros el' Hel'. rewrite !length_alter.
      apply Hal. by rewrite <- Hel'.
  - constructor; simpl; try done.
    + apply Forall_app. split; [done | by constructor].
    + unfold monitor. simpl. intros el' [= <-].
      rewrite length_alter.
      change (length (elements p) < length (elements (style_notice (length (elements p)) (createElement "div" p)))).
      rewrite length_style_notice. simpl. rewrite length_app. simpl. lia.
Qed.

Lemma fadeOut_installed w : installed w -> installed (fadeOut 0 w).
Proof.
  intros H. shape H. destruct H as [Hf Ha Hv Hb Hi Ht Hc Hal]. simpl in *.
  unfold fadeOut. simpl. destruct (cheatAlert m) as [el|] eqn:Hm.
  - constructor; simpl; try done.
    unfold monitor. simpl. intros el' Hel'. rewrite length_alter. by apply Hal.
  - by constructor.
Qed.

Lemma on_closure_installed f w :
  (forall m, cheatAlert (f m) = cheatAlert m) ->
  installed w -> installed (on_closure 0 f w).
Proof.
  intros Hfr H. shape H. destruct H as [Hf Ha Hv Hb Hi Ht Hc Hal]. simpl in *.
  constructor; simpl; try done.
  unfold monitor. simpl. intros el. rewrite Hfr. apply Hal.
Qed.

Lemma console_log_installed line w :
  installed w -> installed (on_page (console_log line) w).
Proof. intros [Hf Ha Hv Hb Hi Ht Hc Hal]. by constructor. Qed.

Lemma devtoolsPoll_installed w : installed w -> installed (devtoolsPoll 0 w).
Proof.
  intros H. unfold devtoolsPoll.
  destruct (_ || _).
  - destruct (closures w !! 0) as [m|]; [|done].
    destruct (negb (devtoolsOpen m)); [|done].
    apply showWarning_installed. by apply on_closure_installed.
  - by apply on_closure_installed.
Qed.

Lemma onVisibilityChange_installed w :
  installed w -> installed (onVisibilityChange 0 w).
Proof.
  intros H. unfold onVisibilityChange. destruct (hidden (page w)); [|done].
  apply showWarning_installed. by do 2 (apply on_closure_installed; [done|]).
Qed.

Lemma onBlur_installed w : installed w -> installed (onBlur 0 w).
Proof.
  intros H. unfold onBlur.
  apply showWarning_installed. do 2 (apply on_closure_installed; [done|]).
  by apply console_log_installed.
Qed.

Lemma Forall_filter_keep {A} (P Q : A -> Prop) `{!forall x, Decision (Q x)} (l : list A) :
  Forall P l -> Forall P (filter Q l).
Proof.
  rewrite !Forall_forall. intros HP x Hx.
  apply list_elem_of_filter in Hx. apply HP. tauto.
Qed.

Lemma run_callback_installed cb w :
  own cb -> installed w -> installed (run_callback cb w).
Proof.
  destruct cb; simpl; intros -> H.
  - by apply onVisibilityChange_installed.
  - by apply onBlur_installed.
  - by apply devtoolsPoll_installed.
  - by apply fadeOut_installed.
Qed.

(** ** Invariants of the event loop

    A property of worlds that the timer callbacks preserve, and that looks
    only at the closures, the DOM and the history of warnings, survives the
    passing of time; if the two listeners preserve it too, it survives every
    event. *)

Lemma dispatch_invariant P cbs w :
  Forall (preserves P) cbs -> installed w -> P w ->
  installed (dispatch run_callback cbs w) /\ P (dispatch run_callback cbs w).
Proof.
  intros Hcbs. revert w.
  induction Hcbs as [|cb cbs [Hown Hcb] _ IH]; intros w Hw HP; [done|].
  simpl. apply IH.
  - by apply run_callback_installed.
  - by apply Hcb.
Qed.

Lemma installed_stable_page f w :
  (forall p, __ECHO_VIVA_SECURITY_LOADED__ (f p) = __ECHO_VIVA_SECURITY_LOADED__ p) ->
  (forall p, cheatCountAccessor (f p) = cheatCountAccessor p) ->
  (forall p, visibilityListeners (f p) = visibilityListeners p) ->
  (forall p, blurListeners (f p) = blurListeners p) ->
  (forall p, intervals (f p) = intervals p) ->
  (forall p, timeouts (f p) = timeouts p) ->
  (forall p, elements (f p) = elements p) ->
  installed w -> installed (on_page f w).
Proof.
  intros E1 E2 E3 E4 E5 E6 E7 [Hf Ha Hv Hb Hi Ht Hc Hal].
  constructor; simpl; rewrite ?E1, ?E2, ?E3, ?E4, ?E5, ?E6, ?E7; done.
Qed.

Section Invariants.
Variable P : World Monitor -> Prop.
Hypothesis P_stable : stable P.
Hypothesis P_fadeOut : forall w, installed w -> P w -> P (fadeOut 0 w).
Hypothesis P_devtoolsPoll : forall w, installed w -> P w -> P (devtoolsPoll 0 w).

Lemma run_timeouts_invariant w :
  installed w -> P w ->
  installed (run_timeouts run_callback w) /\ P (run_timeouts run_callback w).
Proof.
  intros Hw HP. unfold run_timeouts.
  pose proof (in_timeouts _ Hw) as Hq.
  apply dispatch_invariant.
  - apply Forall_fmap. eapply Forall_impl.
    + apply Forall_filter_keep, Hq.
    + intros [t cb]. simpl. intros ->. by split.
  - destruct Hw as [Hf Ha Hv Hb Hi Ht Hc Hal].
    constructor; simpl; try done. by apply Forall_filter_keep.
  - eapply P_stable; [|exact HP]; done.
Qed.

Lemma run_intervals_invariant w :
  installed w -> P w ->
  installed (run_intervals run_callback w) /\ P (run_intervals run_callback w).
Proof.
  intros Hw HP. unfold run_intervals.
  destruct (in_intervals _ Hw) as [t Hiv].
  apply dispatch_invariant.
  - apply Forall_fmap. rewrite Hiv. apply Forall_filter_keep.
    repeat constructor. simpl. apply P_devtoolsPoll.
  - destruct Hw as [Hf Ha Hv Hb Hi Ht Hc Hal].
    constructor; simpl; try done. rewrite Hiv. simpl.
    case_decide; by eexists.
  - eapply P_stable; [|exact HP]; done.
Qed.

Lemma millisecond_invariant w :
  installed w -> P w ->
  installed (millisecond run_callback w) /\ P (millisecond run_callback w).
Proof.
  intros Hw HP. unfold millisecond.
  apply run_intervals_invariant; apply run_timeouts_invariant.
  - by apply installed_stable_page.
  - eapply P_stable; [|exact HP]; done.
  - by apply installed_stable_page.
  - eapply P_stable; [|exact HP]; done.
Qed.

Lemma elapse_invariant ms w :
  installed w -> P w ->
  installed (elapse run_callback ms w) /\ P (elapse run_callback ms w).
Proof.
  intros Hw HP. unfold elapse.
  apply (N.iter_invariant ms _ _ (fun w => installed w /\ P w)); [|done].
  intros w' [Hw' HP']. by apply millisecond_invariant.
Qed.

Hypothesis P_onVisibilityChange :
  forall w, installed w -> P w -> P (onVisibilityChange 0 w).
Hypothesis P_onBlur : forall w, installed w -> P w -> P (onBlur 0 w).

Lemma step_invariant e w :
  installed w -> P w -> installed (browser_step e w) /\ P (browser_step e w).
Proof.
  intros Hw HP. destruct e as [|h| |ow iw oh ih|ms]; simpl.
  - unfold load. simpl. rewrite (in_flag _ Hw). split.
    + by apply console_log_installed.
    + eapply P_stable; [|exact HP]; done.
  - rewrite (in_visibility _ Hw). apply dispatch_invariant.
    + repeat constructor. apply P_onVisibilityChange.
    + by apply installed_stable_page.
    + eapply P_stable; [|exact HP]; done.
  - rewrite (in_blur _ Hw). apply dispatch_invariant; [|done..].
    repeat constructor. apply P_onBlur.
  - split.
    + by apply installed_stable_page.
    + eapply P_stable; [|exact HP]; done.
  - by apply elapse_invariant.
Qed.

Lemma run_invariant evs w :
  installed w -> P w -> installed (browser_run evs w) /\ P (browser_run evs w).
Proof.
  revert w. induction evs as [|e evs IH]; intros w Hw HP; [done|].
  simpl. destruct (step_invariant e w Hw HP). by apply IH.
Qed.
End Invariants.

(** ** The counter and its accessor *)

Lemma showWarning_monitor msg w :
  installed w ->
  monitor (showWarning 0 msg w) =
  set_cheatAlert
    (Some (default (length (elements (page w))) (cheatAlert (monitor w))))
    (monitor w).
Proof.
  intros H. shape H. unfold showWarning, monitor. simpl.
  destruct m as [ws n [el|] d]; reflexivity.
Qed.

Lemma fadeOut_closures c w : closures (fadeOut c w) = closures w.
Proof.
  unfold fadeOut. destruct (closures w !! c) as [m|]; [|done].
  by destruct (cheatAlert m).
Qed.

Lemma fadeOut_monitor c w : monitor (fadeOut c w) = monitor w.
Proof. unfold monitor. by rewrite fadeOut_closures. Qed.

Lemma showWarning_counter msg w :
  installed w -> counter (showWarning 0 msg w) = counter w.
Proof. intros H. unfold counter. by rewrite showWarning_monitor. Qed.

Lemma devtoolsPoll_counter w :
  installed w -> counter (devtoolsPoll 0 w) = counter w.
Proof.
  intros H. unfold devtoolsPoll. destruct (_ || _).
  - destruct (closures w !! 0) as [m|] eqn:Hm; [|done].
    destruct (negb (devtoolsOpen m)); [|done].
    rewrite showWarning_counter by (by apply on_closure_installed).
    shape H. reflexivity.
  - shape H. reflexivity.
Qed.

Lemma onVisibilityChange_counter w :
  installed w ->
  counter (onVisibilityChange 0 w) =
  (counter w + if hidden (page w) then 1 else 0)%Z.
Proof.
  intros H. unfold onVisibilityChange. destruct (hidden (page w)); [|lia].
  rewrite showWarning_counter
    by (by do 2 (apply on_closure_installed; [done|])).
  shape H. reflexivity.
Qed.

Lemma onBlur_counter w :
  installed w -> counter (onBlur 0 w) = (counter w + 1)%Z.
Proof.
  intros H. unfold onBlur.
  rewrite showWarning_counter.
  - shape H. reflexivity.
  - do 2 (apply on_closure_installed; [done|]). by apply console_log_installed.
Qed.

Lemma accessor_installed w :
  installed w -> getEchoVivaCheatCount w = Some (counter w).
Proof.
  intros H. unfold getEchoVivaCheatCount. rewrite (in_accessor _ H).
  shape H. reflexivity.
Qed.

Lemma elapse_counter ms w :
  installed w -> counter (elapse run_callback ms w) = counter w.
Proof.
  intros H.
  apply (elapse_invariant (fun w' => counter w' = counter w)); try done.
  - intros w1 w2 [= E _ _ _]. unfold counter, monitor. by rewrite E.
  - intros w' _ <-. unfold counter. by rewrite fadeOut_monitor.
  - intros w' Hw' <-. by apply devtoolsPoll_counter.
Qed.

Lemma step_installed e w : installed w -> installed (browser_step e w).
Proof.
  intros H. by apply (step_invariant (fun _ => True)).
Qed.

Lemma run_installed evs w : installed w -> installed (browser_run evs w).
Proof.
  intros H. by apply (run_invariant (fun _ => True)).
Qed.

Lemma injected_installed w evs :
  pristine w -> installed (browser_run (Inject :: evs) w).
Proof.
  intros H. change (browser_run (Inject :: evs) w) with (browser_run evs (load w)).
  by apply run_installed, load_installed.
Qed.

Lemma step_counter e w :
  installed w ->
  counter (browser_step e w) = (counter w + if suspicious e then 1 else 0)%Z.
Proof.
  intros H. destruct e as [|h| |ow iw oh ih|ms]; simpl.
  - unfold load. simpl. rewrite (in_flag _ H). unfold counter, monitor. simpl. lia.
  - rewrite (in_visibility _ H). simpl.
    rewrite onVisibilityChange_counter by (by apply installed_stable_page).
    simpl. destruct h; reflexivity.
  - rewrite (in_blur _ H). simpl. by apply onBlur_counter.
  - unfold counter, monitor. simpl. lia.
  - rewrite elapse_counter by done. lia.
Qed.

Lemma run_counter evs w :
  installed w ->
  counter (browser_run evs w) =
  (counter w + Z.of_nat (length (List.filter suspicious evs)))%Z.
Proof.
  revert w. induction evs as [|e evs IH]; intros w H; simpl.
  - lia.
  - change (foldl _ ?a evs) with (browser_run evs a).
    rewrite IH by (by apply step_installed).
    rewrite step_counter by done.
    destruct (suspicious e); simpl length; lia.
Qed.

Lemma load_counter w : pristine w -> counter (load w) = 0%Z.
Proof.
  intros [Hg Hf Ha Hv Hb Ht Hi Hc]. destruct w as [p cl]. simpl in *. subst cl.
  unfold load. simpl. rewrite Hf. reflexivity.
Qed.

(** C1.  From the first evaluation of the script on, whatever events
    follow, [getEchoVivaCheatCount()] returns the number of suspicious events
    among them (visibility changes to hidden, and blurs); it returns 0 right
    after load; and a devtools poll, detection or not, leaves what it returns
    unchanged. *)
Theorem accessor_counts_suspicious_events (w : World Monitor) (evs : list Event) :
  pristine w ->
  getEchoVivaCheatCount (browser_run (Inject :: evs) w)
    = Some (Z.of_nat (length (List.filter suspicious evs)))
  /\ getEchoVivaCheatCount (browser_run [Inject] w) = Some 0%Z
  /\ forall ow iw oh ih,
       let w' := browser_run (Inject :: evs) w in
       getEchoVivaCheatCount
         (devtoolsPoll 0 (on_page (set_dimensions ow iw oh ih) w'))
       = getEchoVivaCheatCount w'.
Proof.
  intros Hw. pose proof (load_installed _ Hw) as Hl.
  change (browser_run (Inject :: evs) w) with (browser_run evs (load w)).
  change (browser_run [Inject] w) with (load w).
  pose proof (run_installed evs _ Hl) as Hr.
  repeat split.
  - rewrite accessor_installed by done.
    rewrite run_counter by done. rewrite load_counter by done. done.
  - rewrite accessor_installed by done. by rewrite load_counter.
  - intros ow iw oh ih w'. subst w'.
    assert (installed (on_page (set_dimensions ow iw oh ih)
                         (browser_run evs (load w)))) as Hd
      by (by apply installed_stable_page).
    rewrite !accessor_installed by (done || by apply devtoolsPoll_installed).
    by rewrite devtoolsPoll_counter.
Qed.

Lemma accessor_counts_suspicious_events_witness :
  pristine blank /\
  getEchoVivaCheatCount
    (browser_run
       [Inject; VisibilityChange true; Resize 1500 1000 800 720; Elapse 1000;
        VisibilityChange false; Blur; VisibilityChange true] blank)
  = Some 3%Z.
Proof.
  assert (pristine blank) as Hb by (constructor; reflexivity).
  split; [exact Hb|].
  exact (proj1 (accessor_counts_suspicious_events blank
    [VisibilityChange true; Resize 1500 1000 800 720; Elapse 1000;
     VisibilityChange false; Blur; VisibilityChange true] Hb)).
Defined.

(** ** Re-injection *)

Lemma load_again w :
  __ECHO_VIVA_SECURITY_LOADED__ (page w) = true -> load w = on_page (console_log "SECURITY loaded!") w.
Proof. intros H. unfold load. simpl. by rewrite H. Qed.

(** C2, as the code has it.  Evaluating the script again, at any time after
    its first evaluation, writes one line to the console and then takes the
    guard's early return: the listener lists, the interval and timeout
    queues, the closures (counter, notice reference, both flags), the
    accessor and the DOM are what they were.  The whole effect is the
    console line written before the guard is tested. *)
Theorem second_injection_registers_nothing (w : World Monitor) (evs : list Event) :
  pristine w ->
  let w1 := browser_run (Inject :: evs) w in
  let w2 := browser_step Inject w1 in
  visibilityListeners (page w2) = visibilityListeners (page w1)
  /\ blurListeners (page w2) = blurListeners (page w1)
  /\ intervals (page w2) = intervals (page w1)
  /\ timeouts (page w2) = timeouts (page w1)
  /\ closures w2 = closures w1
  /\ getEchoVivaCheatCount w2 = getEchoVivaCheatCount w1
  /\ elements (page w2) = elements (page w1)
  /\ body (page w2) = body (page w1)
  /\ warnings (page w2) = warnings (page w1)
  /\ w2 = on_page (console_log "SECURITY loaded!") w1.
Proof.
  intros Hw w1 w2. subst w2 w1.
  change (browser_run (Inject :: evs) w) with (browser_run evs (load w)).
  set (w1 := browser_run evs (load w)).
  assert (installed w1) as H1 by (apply run_installed, load_installed, Hw).
  change (browser_step Inject w1) with (load w1).
  rewrite (load_again w1) by apply H1.
  by repeat split.
Qed.

Lemma second_injection_registers_nothing_witness :
  pristine blank /\
  let w1 := browser_run [Inject; Blur; Elapse 500; VisibilityChange true] blank in
  closures (browser_step Inject w1) = closures w1
  /\ getEchoVivaCheatCount (browser_step Inject w1) = Some 2%Z.
Proof.
  assert (pristine blank) as Hb by (constructor; reflexivity).
  split; [exact Hb|].
  pose proof (second_injection_registers_nothing blank
                [Blur; Elapse 500; VisibilityChange true] Hb) as H.
  cbv zeta in H. destruct H as (_ & _ & _ & _ & Hc & Ha & _).
  split; [exact Hc|]. rewrite Ha. vm_compute. reflexivity.
Defined.

(** Counterexample to C2 as stated.  The second evaluation is not a no-op:
    the call of [console.log] stands before the guard, so the console has a
    second line and the world after the second evaluation is not the world
    before it. *)
Lemma second_injection_logs_a_line :
  let w1 := browser_run [Inject] blank in
  let w2 := browser_step Inject w1 in
  console (page w1) = ["SECURITY loaded!"]
  /\ console (page w2) = ["SECURITY loaded!"; "SECURITY loaded!"]
  /\ w2 <> w1.
Proof.
  split; [vm_compute; reflexivity|]. split; [vm_compute; reflexivity|].
  intros E. apply (f_equal (fun w => length (console (page w)))) in E.
  vm_compute in E. discriminate E.
Qed.

(** ** One tick of the devtools heuristic *)

Lemma breach_false d :
  breach d = false <-> (width_delta d <= 160)%Z /\ (height_delta d <= 160)%Z.
Proof.
  unfold breach, threshold. rewrite orb_false_iff, !Z.gtb_ltb, !Z.ltb_ge. done.
Qed.

Lemma breach_true d : breach d = true <-> breached d.
Proof.
  unfold breach, breached, threshold.
  rewrite orb_true_iff, !Z.gtb_ltb, !Z.ltb_lt. lia.
Qed.

Lemma quiet_breach d : quiet d -> breach d = false.
Proof. intros [Hw Hh]. apply breach_false. lia. Qed.

Arguments showWarning : simpl never.
Arguments style_notice : simpl never.

Lemma showWarning_warnings msg w :
  installed w ->
  warnings (page (showWarning 0 msg w)) = warnings (page w) ++ [(now (page w), msg)].
Proof.
  intros H. shape H. unfold showWarning. simpl. by destruct (cheatAlert m).
Qed.

Lemma showWarning_now c msg w : now (page (showWarning c msg w)) = now (page w).
Proof.
  unfold showWarning. destruct (closures w !! c) as [m|]; [|done].
  by destruct (cheatAlert m).
Qed.

Lemma poll_at_spec d w :
  installed w ->
  installed (poll_at d w)
  /\ devtoolsOpen (monitor (poll_at d w)) = breach d
  /\ now (page (poll_at d w)) = now (page w)
  /\ warnings (page (poll_at d w)) =
       warnings (page w) ++
       (if breach d && negb (devtoolsOpen (monitor w))
        then [(now (page w), MSG_DEVTOOLS)] else []).
Proof.
  intros H. split.
  { apply devtoolsPoll_installed. by apply installed_stable_page. }
  shape H. unfold poll_at, devtoolsPoll. cbn.
  change ((_ >? threshold)%Z || (_ >? threshold)%Z) with (breach d).
  destruct (breach d); cbn.
  - destruct (devtoolsOpen m) eqn:Hd; cbn.
    + unfold monitor. simpl. by rewrite Hd, app_nil_r.
    + match goal with |- context [showWarning 0 _ ?w0] =>
        assert (installed w0) as H0
      end.
      { apply (on_closure_installed (set_devtoolsOpen true)); [done|].
        by apply installed_stable_page. }
      rewrite showWarning_monitor, showWarning_warnings, showWarning_now by done.
      unfold monitor. simpl. done.
  - unfold monitor. simpl. by rewrite app_nil_r.
Qed.

Lemma polls_spec ds w :
  installed w ->
  installed (polls ds w)
  /\ now (page (polls ds w)) = now (page w)
  /\ devtoolsOpen (monitor (polls ds w)) =
       final (devtoolsOpen (monitor w)) (breach <$> ds)
  /\ warnings (page (polls ds w)) =
       warnings (page w) ++
       replicate (rising (devtoolsOpen (monitor w)) (breach <$> ds))
                 (now (page w), MSG_DEVTOOLS).
Proof.
  revert w. induction ds as [|d ds IH]; intros w H.
  - simpl. by rewrite app_nil_r.
  - destruct (poll_at_spec d w H) as (H1 & Hflag & Hnow & Hwarn).
    destruct (IH _ H1) as (H2 & Hnow2 & Hflag2 & Hwarn2).
    change (polls (d :: ds) w) with (polls ds (poll_at d w)).
    split; [done|]. split; [congruence|]. split.
    + by rewrite Hflag2, Hflag.
    + rewrite Hwarn2, Hwarn, Hflag, Hnow, <- app_assoc. f_equal.
      simpl. by destruct (breach d && negb (devtoolsOpen (monitor w))).
Qed.

Lemma rising_quiet flag bs : Forall (fun b => b = false) bs -> rising flag bs = 0.
Proof.
  intros H. revert flag. induction H as [|b bs -> _ IH]; intros flag; [done|].
  simpl. apply IH.
Qed.

Lemma rising_breached flag bs :
  Forall (fun b => b = true) bs -> bs <> [] ->
  rising flag bs = (if flag then 0 else 1) /\ final flag bs = true.
Proof.
  intros H. revert flag. induction H as [|b bs -> Hbs IH]; intros flag Hne; [by destruct Hne|].
  simpl. destruct bs as [|b' bs].
  - by destruct flag.
  - destruct (IH true) as [-> Hl]; [done|].
    split; [by destruct flag|done].
Qed.

Lemma rising_app flag bs1 bs2 :
  rising flag (bs1 ++ bs2) = rising flag bs1 + rising (final flag bs1) bs2.
Proof.
  revert flag. induction bs1 as [|b bs1 IH]; intros flag; [done|].
  simpl. rewrite IH. lia.
Qed.

Lemma final_app flag bs1 bs2 :
  final flag (bs1 ++ bs2) = final (final flag bs1) bs2.
Proof. revert flag. induction bs1 as [|b bs1 IH]; intros flag; [done|]. apply IH. Qed.

Lemma final_quiet bs :
  Forall (fun b => b = false) bs -> final false bs = false.
Proof. induction 1 as [|b bs -> _ IH]; done. Qed.

Lemma Forall_breach_quiet ds :
  Forall quiet ds -> Forall (fun b => b = false) (breach <$> ds).
Proof.
  intros H. apply Forall_fmap. eapply Forall_impl; [exact H|].
  intros d. apply quiet_breach.
Qed.

Lemma Forall_breach_breached ds :
  Forall breached ds -> Forall (fun b => b = true) (breach <$> ds).
Proof.
  intros H. apply Forall_fmap. eapply Forall_impl; [exact H|].
  intros d. apply breach_true.
Qed.

(** ** The notice: creation and reuse *)

Lemma showWarning_reuse p m el msg :
  cheatAlert m = Some el ->
  showWarning 0 msg (mkWorld p [m]) =
  mkWorld
    (setTimeout (FadeOut 0) FADE_DELAY
       (set_style el "opacity" "1"
          (set_textContent el msg
             (set_warnings (fun h => h ++ [(now p, msg)]) p))))
    [m].
Proof. intros H. unfold showWarning. simpl. by rewrite H. Qed.

Lemma showWarning_create p m msg :
  cheatAlert m = None ->
  showWarning 0 msg (mkWorld p [m]) =
  let el := length (elements p) in
  mkWorld
    (setTimeout (FadeOut 0) FADE_DELAY
       (appendChild el
          (set_textContent el msg
             (style_notice el
                (createElement "div"
                   (set_warnings (fun h => h ++ [(now p, msg)]) p))))))
    [set_cheatAlert (Some el) m].
Proof. intros H. unfold showWarning. simpl. by rewrite H. Qed.

Lemma style_notice_elements el p :
  elements (style_notice el p) = alter notice_styled el (elements p).
Proof.
  unfold style_notice, set_style. simpl.
  rewrite !list_alter_alter_eq. done.
Qed.

(** The notice after a call: the old one with the new text and opacity 1,
    or a new one with the creation style and the text. *)
Lemma showWarning_notice msg w :
  installed w ->
  notice (showWarning 0 msg w) =
  Some match notice w with
       | Some e => restyle "opacity" "1" (retext msg e)
       | None => retext msg (notice_styled BLANK_DIV)
       end.
Proof.
  intros H. shape H. pose proof (in_alert _ H) as Hal.
  unfold monitor in Hal. simpl in Hal.
  destruct (cheatAlert m) as [el|] eqn:Hm.
  - rewrite (showWarning_reuse _ _ el) by done. unfold notice. simpl. rewrite Hm.
    rewrite !list_lookup_alter_eq.
    destruct (lookup_lt_is_Some_2 (elements p) el) as [e ->]; [by apply Hal|].
    done.
  - rewrite showWarning_create by done. unfold notice. cbn.
    rewrite list_lookup_alter_eq, style_notice_elements, list_lookup_alter_eq.
    cbn. by rewrite Hm, list_lookup_middle.
Qed.

Lemma showWarning_notice_text msg w :
  installed w -> notice_text (showWarning 0 msg w) = Some msg.
Proof.
  intros H. unfold notice_text. rewrite showWarning_notice by done.
  by destruct (notice w).
Qed.

Lemma showWarnings_installed msgs w :
  installed w -> installed (showWarnings msgs w).
Proof.
  revert w. induction msgs as [|msg msgs IH]; intros w H; [done|].
  apply IH. by apply showWarning_installed.
Qed.

Lemma showWarnings_snoc msgs msg w :
  showWarnings (msgs ++ [msg]) w = showWarning 0 msg (showWarnings msgs w).
Proof. unfold showWarnings. by rewrite foldl_snoc. Qed.

(** A property that [showWarning] and the fade preserve, and that does not
  look at the counter or the flags, holds after every event. *)
Section NoticeInvariants.
Variable P : World Monitor -> Prop.
Hypothesis P_stable : stable P.
Hypothesis P_closure :
  forall f w, (forall m, cheatAlert (f m) = cheatAlert m) ->
              P w -> P (on_closure 0 f w).
Hypothesis P_showWarning :
  forall msg w, installed w -> P w -> P (showWarning 0 msg w).
Hypothesis P_fadeOut : forall w, installed w -> P w -> P (fadeOut 0 w).

Lemma devtoolsPoll_notice_invariant w :
  installed w -> P w -> P (devtoolsPoll 0 w).
Proof.
  intros H HP. unfold devtoolsPoll. destruct (_ || _).
  - destruct (closures w !! 0) as [m|]; [|done].
    destruct (negb (devtoolsOpen m)); [|done].
    apply P_showWarning; [by apply on_closure_installed|by apply P_closure].
  - by apply P_closure.
Qed.

Lemma onVisibilityChange_notice_invariant w :
  installed w -> P w -> P (onVisibilityChange 0 w).
Proof.
  intros H HP. unfold onVisibilityChange. destruct (hidden (page w)); [|done].
  apply P_showWarning.
  - by do 2 (apply on_closure_installed; [done|]).
  - by do 2 (apply P_closure; [done|]).
Qed.

Lemma onBlur_notice_invariant w : installed w -> P w -> P (onBlur 0 w).
Proof.
  intros H HP. unfold onBlur. apply P_showWarning.
  - do 2 (apply on_closure_installed; [done|]). by apply console_log_installed.
  - do 2 (apply P_closure; [done|]). eapply P_stable; [|exact HP]. done.
Qed.

Lemma run_notice_invariant evs w :
  installed w -> P w -> P (browser_run evs w).
Proof.
  intros H HP. apply (run_invariant P); try done.
  - apply devtoolsPoll_notice_invariant.
  - apply onVisibilityChange_notice_invariant.
  - apply onBlur_notice_invariant.
Qed.
End NoticeInvariants.

Lemma fadeOut_notice w :
  notice (fadeOut 0 w) = restyle "opacity" "0" <$> notice w.
Proof.
  unfold notice. rewrite fadeOut_closures.
  destruct (closures w !! 0) as [m|] eqn:Hc; [|done].
  destruct (cheatAlert m) as [el|] eqn:Hm; [|done].
  unfold fadeOut. rewrite Hc, Hm. simpl. by rewrite list_lookup_alter_eq.
Qed.

Lemma fadeOut_warnings c w : warnings (page (fadeOut c w)) = warnings (page w).
Proof.
  unfold fadeOut. destruct (closures w !! c) as [m|]; [|done].
  by destruct (cheatAlert m).
Qed.

Lemma on_closure_notice f w :
  (forall m, cheatAlert (f m) = cheatAlert m) ->
  notice (on_closure 0 f w) = notice w.
Proof.
  intros Hf. unfold notice. simpl. rewrite list_lookup_alter_eq.
  destruct (closures w !! 0) as [m|]; simpl; [|done]. by rewrite Hf.
Qed.

Lemma notice_view w w' : view w' = view w -> notice w' = notice w.
Proof. intros [= Hc He _ _]. unfold notice. by rewrite Hc, He. Qed.

Lemma notice_text_last_message evs w :
  installed w -> notice_text w = last_message w ->
  notice_text (browser_run evs w) = last_message (browser_run evs w).
Proof.
  apply (run_notice_invariant (fun w => notice_text w = last_message w)).
  - intros w1 w2 E. unfold notice_text, last_message.
    rewrite (notice_view _ _ E). by injection E as _ _ _ ->.
  - intros f w1 Hf. unfold notice_text, last_message.
    by rewrite on_closure_notice.
  - intros msg w1 H1 _. rewrite showWarning_notice_text by done.
    unfold last_message. rewrite showWarning_warnings by done.
    by rewrite last_snoc.
  - intros w1 H1. unfold notice_text, last_message.
    rewrite fadeOut_notice, fadeOut_warnings. intros <-.
    by destruct (notice w1).
Qed.

(** C4.  After any non-empty sequence of calls of [showWarning], started in
    any state the installed monitor can be in, the notice's [textContent] is
    the message of the last call.  And whatever the events since the script
    was loaded, the notice's text is the message of the most recent
    warning (there is no notice as long as there was no warning). *)
Theorem notice_text_is_latest_message
    (w0 : World Monitor) (evs : list Event) (msgs : list string) (msg : string) :
  pristine w0 ->
  let w := browser_run (Inject :: evs) w0 in
  notice_text (showWarnings (msgs ++ [msg]) w) = Some msg
  /\ notice_text w = last_message w.
Proof.
  intros Hw0 w. assert (installed w) as Hw by (by apply injected_installed).
  split.
  - rewrite showWarnings_snoc.
    apply showWarning_notice_text. by apply showWarnings_installed.
  - subst w.
    change (browser_run (Inject :: evs) w0) with (browser_run evs (load w0)).
    apply notice_text_last_message; [by apply load_installed|].
    destruct Hw0 as [Hg Hf Ha Hv Hb Ht Hi Hc]. destruct w0 as [p cl].
    simpl in *. subst cl. unfold load, notice_text, last_message. simpl.
    rewrite Hf. simpl. by rewrite Hg.
Qed.

Lemma notice_text_is_latest_message_witness :
  pristine blank /\
  notice_text
    (showWarnings ([MSG_DEVTOOLS; MSG_FOCUS] ++ [MSG_TAB])
       (browser_run [Inject; Blur; Elapse 4500] blank))
  = Some MSG_TAB.
Proof.
  assert (pristine blank) as Hb by (constructor; reflexivity).
  split; [exact Hb|].
  exact (proj1 (notice_text_is_latest_message blank [Blur; Elapse 4500]
                  [MSG_DEVTOOLS; MSG_FOCUS] MSG_TAB Hb)).
Defined.

(** The scenario of the specification: hidden, visible, hidden in quick
    succession. *)
Example hidden_visible_hidden :
  let w := browser_run [Inject; VisibilityChange true; VisibilityChange false;
                        VisibilityChange true] blank in
  getEchoVivaCheatCount w = Some 2%Z /\ notice_text w = Some MSG_TAB.
Proof. vm_compute. done. Qed.

(** ** The fade timer: what a call schedules, what a fade does *)

Lemma showWarning_timeouts msg w :
  installed w ->
  timeouts (page (showWarning 0 msg w)) =
  timeouts (page w) ++ [((now (page w) + 4000)%Z, FadeOut 0)].
Proof.
  intros H. shape H. destruct (cheatAlert m) as [el|] eqn:Hm.
  - by rewrite (showWarning_reuse _ _ el).
  - by rewrite showWarning_create.
Qed.

Lemma fadeOut_body c w : body (page (fadeOut c w)) = body (page w).
Proof.
  unfold fadeOut. destruct (closures w !! c) as [m|]; [|done].
  by destruct (cheatAlert m).
Qed.


Lemma fadeOut_timeouts c w : timeouts (page (fadeOut c w)) = timeouts (page w).
Proof.
  unfold fadeOut. destruct (closures w !! c) as [m|]; [|done].
  by destruct (cheatAlert m).
Qed.


(** A single display is faded at 4000 ms and not before. *)
Example single_display_fades_at_4000 :
  notice_opacity (browser_run [Inject; Blur; Elapse 3999] blank) = None
  /\ notice_opacity (browser_run [Inject; Blur; Elapse 4000] blank) = Some "0"
  /\ body (page (browser_run [Inject; Blur; Elapse 4000] blank)) = [0].
Proof. vm_compute. done. Qed.

(** ** Monotonicity of the counter *)

Lemma run_callback_counter cb w :
  own cb -> installed w ->
  counter (run_callback cb w) = counter w
  \/ counter (run_callback cb w) = (counter w + 1)%Z.
Proof.
  destruct cb; simpl; intros -> H.
  - rewrite onVisibilityChange_counter by done.
    destruct (hidden (page w)); [right|left]; lia.
  - right. by apply onBlur_counter.
  - left. by apply devtoolsPoll_counter.
  - left. unfold counter. by rewrite fadeOut_monitor.
Qed.

(** C6.  In every state [w] the installed monitor can be in, the counter is
    a non-negative integer, and each operation leaves it as it is or adds
    exactly one: the four callbacks handed to the browser (visibility
    listener, blur listener, devtools poll, fade), [showWarning], every
    event of the page (re-injection and the passing of time included); the
    accessor only reads.  So the counter never decreases along a run. *)
Theorem counter_monotone (w0 : World Monitor) (evs : list Event) :
  pristine w0 ->
  let w := browser_run (Inject :: evs) w0 in
  (0 <= counter w)%Z
  /\ getEchoVivaCheatCount w = Some (counter w)
  /\ (forall cb, own cb ->
        counter (run_callback cb w) = counter w
        \/ counter (run_callback cb w) = (counter w + 1)%Z)
  /\ (forall msg, counter (showWarning 0 msg w) = counter w)
  /\ (forall e,
        counter (browser_step e w) = counter w
        \/ counter (browser_step e w) = (counter w + 1)%Z)
  /\ (forall evs', (counter w <= counter (browser_run evs' w))%Z).
Proof.
  intros Hw0 w. assert (installed w) as Hw by (by apply injected_installed).
  repeat split.
  - subst w.
    change (browser_run (Inject :: evs) w0) with (browser_run evs (load w0)).
    rewrite run_counter, load_counter by (done || by apply load_installed). lia.
  - by apply accessor_installed.
  - intros cb Hcb. by apply run_callback_counter.
  - intros msg. by apply showWarning_counter.
  - intros e. rewrite step_counter by done. destruct (suspicious e); [right|left]; lia.
  - intros evs'. rewrite run_counter by done. lia.
Qed.

Lemma counter_monotone_witness :
  pristine blank /\
  (0 <= counter (browser_run [Inject; Blur; VisibilityChange true] blank))%Z.
Proof.
  assert (pristine blank) as Hb by (constructor; reflexivity).
  split; [exact Hb|].
  exact (proj1 (counter_monotone blank [Blur; VisibilityChange true] Hb)).
Defined.

(** C9.  A tick that sees both deltas at exactly 160 is not a breach: the
    flag is clear after it and no warning is shown. *)
Theorem delta_at_threshold_is_no_breach
    (w0 : World Monitor) (evs : list Event) (d : Dimensions) :
  pristine w0 ->
  width_delta d = 160%Z -> height_delta d = 160%Z ->
  let w := browser_run (Inject :: evs) w0 in
  breach d = false
  /\ devtoolsOpen (monitor (poll_at d w)) = false
  /\ warnings (page (poll_at d w)) = warnings (page w).
Proof.
  intros Hw0 Hwd Hhd w.
  assert (installed w) as Hw by (by apply injected_installed).
  assert (breach d = false) as Hb by (apply breach_false; lia).
  destruct (poll_at_spec d w Hw) as (_ & Hflag & _ & Hwarn).
  rewrite Hflag, Hwarn, Hb. simpl. by rewrite app_nil_r.
Qed.

Lemma delta_at_threshold_is_no_breach_witness :
  pristine blank /\
  let d := mkDimensions 1440 1280 880 720 in
  let w := browser_run [Inject; Blur] blank in
  devtoolsOpen (monitor (poll_at d w)) = false
  /\ warnings (page (poll_at d w)) = warnings (page w).
Proof.
  assert (pristine blank) as Hb by (constructor; reflexivity).
  split; [exact Hb|]. intros d w.
  apply (delta_at_threshold_is_no_breach blank [Blur] d Hb);
    vm_compute; reflexivity.
Defined.

(** ** One notice element *)

Lemma monitor_view w w' : view w' = view w -> monitor w' = monitor w.
Proof. intros [= Hc _ _ _]. unfold monitor. by rewrite Hc. Qed.

Lemma on_closure_cheatAlert f w :
  (forall m, cheatAlert (f m) = cheatAlert m) ->
  cheatAlert (monitor (on_closure 0 f w)) = cheatAlert (monitor w).
Proof.
  intros Hf. unfold monitor. simpl. rewrite list_lookup_alter_eq.
  destruct (closures w !! 0) as [m|]; simpl; [|done]. apply Hf.
Qed.

Lemma showWarning_cheatAlert msg w :
  installed w ->
  cheatAlert (monitor (showWarning 0 msg w)) =
  Some (default (length (elements (page w))) (cheatAlert (monitor w))).
Proof. intros H. by rewrite showWarning_monitor. Qed.

Lemma style_notice_body el p : body (style_notice el p) = body p.
Proof. reflexivity. Qed.

Lemma showWarning_one_notice els0 body0 msg w :
  installed w -> one_notice els0 body0 w ->
  one_notice els0 body0 (showWarning 0 msg w).
Proof.
  intros H. unfold one_notice.
  rewrite showWarning_cheatAlert by done.
  shape H. unfold monitor. cbn.
  destruct (cheatAlert m) as [el|] eqn:Hm; cbn.
  - intros (-> & Ht & Hl & Hb). rewrite (showWarning_reuse _ _ (length els0)) by done.
    cbn. rewrite !length_alter, !take_alter_ge by done. done.
  - intros [He Hb]. rewrite showWarning_create by done. cbn.
    rewrite length_alter, take_alter_ge by (rewrite He; done).
    rewrite style_notice_elements, length_alter, take_alter_ge by (rewrite He; done).
    cbn. rewrite style_notice_body. cbn.
    rewrite length_app, He, Hb, take_app_length. simpl.
    repeat split; lia.
Qed.

Lemma fadeOut_one_notice els0 body0 w :
  one_notice els0 body0 w -> one_notice els0 body0 (fadeOut 0 w).
Proof.
  unfold one_notice. rewrite fadeOut_monitor, fadeOut_body.
  unfold fadeOut, monitor. destruct (closures w !! 0) as [m|]; simpl; [|done].
  destruct (cheatAlert m) as [el|]; simpl; [|done].
  intros (-> & Ht & Hl & Hb). by rewrite length_alter, take_alter_ge.
Qed.

Lemma run_one_notice els0 body0 evs w :
  installed w -> one_notice els0 body0 w ->
  one_notice els0 body0 (browser_run evs w).
Proof.
  apply (run_notice_invariant (one_notice els0 body0)).
  - intros w1 w2 E. unfold one_notice. rewrite (monitor_view _ _ E).
    by injection E as _ -> -> _.
  - intros f w1 Hf. unfold one_notice. by rewrite on_closure_cheatAlert.
  - intros msg w1. apply showWarning_one_notice.
  - intros w1 _. apply fadeOut_one_notice.
Qed.

Lemma run_cheatAlert_kept el evs w :
  installed w -> cheatAlert (monitor w) = Some el ->
  cheatAlert (monitor (browser_run evs w)) = Some el.
Proof.
  apply (run_notice_invariant (fun w => cheatAlert (monitor w) = Some el)).
  - intros w1 w2 E. by rewrite (monitor_view _ _ E).
  - intros f w1 Hf. by rewrite on_closure_cheatAlert.
  - intros msg w1 H1 Hel. rewrite showWarning_cheatAlert by done. by rewrite Hel.
  - intros w1 _. by rewrite fadeOut_monitor.
Qed.

(** C7.  Over the whole life of the monitor the script adds at most one
    element to the page.
    - In every reachable state the DOM is the host's, or the host's with one
      more element, appended to [body], to which [cheatAlert] refers
      ([one_notice]).
    - [showWarning] creates and appends an element exactly when the
      reference is null.
    - When the reference is set, [showWarning] keeps it, creates nothing,
      appends nothing, and gives that element the new text and opacity 1.
    - Once set, the reference holds the same element after every later
      event. *)
Theorem at_most_one_notice_element
    (w0 : World Monitor) (evs : list Event) (msg : string) :
  pristine w0 ->
  let w := browser_run (Inject :: evs) w0 in
  let w' := showWarning 0 msg w in
  one_notice (elements (page w0)) (body (page w0)) w
  /\ (cheatAlert (monitor w) = None ->
        cheatAlert (monitor w') = Some (length (elements (page w)))
        /\ length (elements (page w')) = S (length (elements (page w)))
        /\ body (page w') = body (page w) ++ [length (elements (page w))])
  /\ (forall el e, cheatAlert (monitor w) = Some el -> notice w = Some e ->
        cheatAlert (monitor w') = Some el
        /\ length (elements (page w')) = length (elements (page w))
        /\ body (page w') = body (page w)
        /\ notice w' = Some (restyle "opacity" "1" (retext msg e)))
  /\ (forall el evs', cheatAlert (monitor w) = Some el ->
        cheatAlert (monitor (browser_run evs' w)) = Some el).
Proof.
  intros Hw0 w w'. assert (installed w) as Hw by (by apply injected_installed).
  split; [|clearbody w; clear Hw0; split; [|split]].
  - subst w.
    change (browser_run (Inject :: evs) w0) with (browser_run evs (load w0)).
    apply run_one_notice; [by apply load_installed|].
    destruct Hw0 as [Hg Hf Ha Hv Hb Ht Hi Hc]. destruct w0 as [p cl].
    simpl in *. subst cl. unfold load, one_notice, monitor. simpl.
    rewrite Hf. done.
  - intros Hnone. subst w'. rewrite showWarning_cheatAlert, Hnone by done.
    split; [done|]. shape Hw. unfold monitor in Hnone. simpl in Hnone.
    rewrite showWarning_create by done. cbn.
    rewrite length_alter, style_notice_elements, length_alter, style_notice_body.
    cbn. rewrite length_app. simpl. split; [lia|done].
  - intros el e Hel He. subst w'. rewrite showWarning_cheatAlert, Hel by done.
    split; [done|]. rewrite showWarning_notice, He by done.
    shape Hw. unfold monitor in Hel. simpl in Hel.
    rewrite (showWarning_reuse _ _ el) by done. simpl.
    by rewrite !length_alter.
  - intros el evs' Hel. by apply run_cheatAlert_kept.
Qed.

Lemma at_most_one_notice_element_witness :
  pristine blank /\
  one_notice [] []
    (browser_run [Inject; Blur; Elapse 5000; VisibilityChange true; Blur] blank).
Proof.
  assert (pristine blank) as Hb by (constructor; reflexivity).
  split; [exact Hb|].
  exact (proj1 (at_most_one_notice_element blank
                  [Blur; Elapse 5000; VisibilityChange true; Blur] MSG_TAB Hb)).
Defined.

(** ** What a call on an existing notice leaves alone *)

Lemma opacity_not_set_at_creation : "opacity" ∉ CREATION_STYLE.*1.
Proof.
  unfold CREATION_STYLE. simpl. rewrite !not_elem_of_cons.
  repeat split; try discriminate. apply not_elem_of_nil.
Qed.

Lemma restyle_other k k' v e :
  k' <> k -> style (restyle k v e) !! k' = style e !! k'.
Proof. intros Hne. simpl. by apply lookup_insert_ne. Qed.

Lemma restyle_opacity_creation_styled v e :
  creation_styled e -> creation_styled (restyle "opacity" v e).
Proof.
  unfold creation_styled. rewrite !Forall_forall. intros H [k val] Hin.
  rewrite restyle_other; [by apply H|].
  simpl. intros ->. apply opacity_not_set_at_creation.
  apply list_elem_of_fmap. by exists ("opacity", val).
Qed.

Lemma creation_styled_new msg : creation_styled (retext msg (notice_styled BLANK_DIV)).
Proof.
  unfold creation_styled, CREATION_STYLE.
  repeat (constructor; [by vm_compute|]). constructor.
Qed.

Lemma run_creation_styled evs w :
  installed w ->
  (forall e, notice w = Some e -> creation_styled e) ->
  forall e, notice (browser_run evs w) = Some e -> creation_styled e.
Proof.
  apply (run_notice_invariant
           (fun w => forall e, notice w = Some e -> creation_styled e)).
  - intros w1 w2 E. by rewrite (notice_view _ _ E).
  - intros f w1 Hf. by rewrite on_closure_notice.
  - intros msg w1 H1 HP e. rewrite showWarning_notice by done.
    intros [= <-]. destruct (notice w1) as [e1|].
    + apply restyle_opacity_creation_styled. by apply (HP e1).
    + apply creation_styled_new.
  - intros w1 _ HP e. rewrite fadeOut_notice.
    destruct (notice w1) as [e1|]; [|done]. intros [= <-].
    apply restyle_opacity_creation_styled. by apply HP.
Qed.

(** C10.  When the notice exists, a call of [showWarning] changes, of that
    element, the text and the [opacity] style and nothing else: the tag and
    every other style property are what they were, the twelve properties
    set at creation still have their creation values, the element is where
    it was ([body] and the heap keep their shape), and no other element is
    touched. *)
Theorem reuse_changes_text_and_opacity_only
    (w0 : World Monitor) (evs : list Event) (msg : string) (el : nat) (e : Element) :
  pristine w0 ->
  let w := browser_run (Inject :: evs) w0 in
  let w' := showWarning 0 msg w in
  cheatAlert (monitor w) = Some el ->
  elements (page w) !! el = Some e ->
  exists e',
    elements (page w') !! el = Some e'
    /\ textContent e' = msg
    /\ style e' !! "opacity" = Some "1"
    /\ tagName e' = tagName e
    /\ (forall k, k <> "opacity" -> style e' !! k = style e !! k)
    /\ creation_styled e /\ creation_styled e'
    /\ cheatAlert (monitor w') = Some el
    /\ body (page w') = body (page w)
    /\ length (elements (page w')) = length (elements (page w))
    /\ (forall i, i <> el -> elements (page w') !! i = elements (page w) !! i).
Proof.
  intros Hw0 w w' Hel He.
  assert (installed w) as Hw by (by apply injected_installed).
  assert (notice w = Some e) as Hn.
  { unfold notice. unfold monitor in Hel.
    destruct (closures w !! 0) as [m|]; simpl in Hel; [|done]. by rewrite Hel. }
  assert (creation_styled e) as Hcs.
  { revert Hn. subst w.
    change (browser_run (Inject :: evs) w0) with (browser_run evs (load w0)).
    apply run_creation_styled; [by apply load_installed|].
    destruct Hw0 as [Hg Hf Ha Hv Hb Ht Hi Hc]. destruct w0 as [p cl].
    simpl in *. subst cl. unfold load, notice. simpl. rewrite Hf. done. }
  exists (restyle "opacity" "1" (retext msg e)).
  subst w'. clearbody w. clear Hw0. shape Hw.
  unfold monitor in Hel. simpl in Hel.
  rewrite (showWarning_reuse _ _ el) by done. simpl in *.
  rewrite !list_lookup_alter_eq, He, !length_alter.
  repeat split; try done.
  - apply lookup_insert_eq.
  - intros k Hk. by apply lookup_insert_ne.
  - by apply restyle_opacity_creation_styled.
  - intros i Hi. by rewrite !list_lookup_alter_ne.
Qed.

Lemma reuse_changes_text_and_opacity_only_witness :
  pristine blank /\
  let w := browser_run [Inject; Blur; Elapse 4200] blank in
  exists e',
    elements (page (showWarning 0 MSG_TAB w)) !! 0 = Some e'
    /\ textContent e' = MSG_TAB
    /\ style e' !! "opacity" = Some "1"
    /\ style e' !! "position" = Some "fixed".
Proof.
  assert (pristine blank) as Hb by (constructor; reflexivity).
  split; [exact Hb|]. intros w.
  destruct (reuse_changes_text_and_opacity_only blank [Blur; Elapse 4200] MSG_TAB 0
              (restyle "opacity" "0" (retext MSG_FOCUS (notice_styled BLANK_DIV))) Hb)
    as (e' & H1 & H2 & H3 & _ & _ & _ & H4 & _).
  - vm_compute. reflexivity.
  - vm_compute. reflexivity.
  - exists e'. split; [exact H1|]. split; [exact H2|]. split; [exact H3|].
    exact (Forall_inv H4).
Defined.

(** *** The event loop commutes with a simulation of the callbacks *)
Section Simulation.
Context {A B : Type}.
Variable sim : World A -> World B.
Variable callbackA : Callback -> World A -> World A.
Variable callbackB : Callback -> World B -> World B.
Variable injectA : World A -> World A.
Variable injectB : World B -> World B.
Hypothesis sim_page : forall w, page (sim w) = page w.
Hypothesis sim_on_page : forall f w, sim (on_page f w) = on_page f (sim w).
Hypothesis sim_callback :
  forall cb w, sim (callbackA cb w) = callbackB cb (sim w).
Hypothesis sim_inject : forall w, sim (injectA w) = injectB (sim w).

Lemma sim_dispatch cbs w :
  sim (dispatch callbackA cbs w) = dispatch callbackB cbs (sim w).
Proof.
  revert w. induction cbs as [|cb cbs IH]; intros w; [done|].
  simpl. by rewrite IH, sim_callback.
Qed.

Lemma sim_run_timeouts w :
  sim (run_timeouts callbackA w) = run_timeouts callbackB (sim w).
Proof.
  unfold run_timeouts. cbv zeta. by rewrite sim_dispatch, sim_on_page, !sim_page.
Qed.

Lemma sim_run_intervals w :
  sim (run_intervals callbackA w) = run_intervals callbackB (sim w).
Proof.
  unfold run_intervals. cbv zeta. by rewrite sim_dispatch, sim_on_page, !sim_page.
Qed.

Lemma sim_millisecond w :
  sim (millisecond callbackA w) = millisecond callbackB (sim w).
Proof.
  unfold millisecond. cbv zeta.
  by rewrite sim_run_intervals, sim_run_timeouts, sim_on_page.
Qed.

Lemma sim_elapse ms w :
  sim (elapse callbackA ms w) = elapse callbackB ms (sim w).
Proof.
  unfold elapse. induction ms as [|ms IH] using N.peano_ind; [done|].
  by rewrite !N.iter_succ, sim_millisecond, IH.
Qed.

Lemma sim_step e w :
  sim (step callbackA injectA e w) = step callbackB injectB e (sim w).
Proof.
  destruct e as [|h| |ow iw oh ih|ms]; simpl.
  - apply sim_inject.
  - by rewrite sim_dispatch, sim_on_page, sim_page.
  - by rewrite sim_dispatch, sim_page.
  - apply sim_on_page.
  - apply sim_elapse.
Qed.

Lemma sim_run evs w :
  sim (run callbackA injectA evs w) = run callbackB injectB evs (sim w).
Proof.
  revert w. induction evs as [|e evs IH]; intros w; [done|].
  change (run callbackA injectA (e :: evs) w)
    with (run callbackA injectA evs (step callbackA injectA e w)).
  change (run callbackB injectB (e :: evs) (sim w))
    with (run callbackB injectB evs (step callbackB injectB e (sim w))).
  by rewrite IH, sim_step.
Qed.
End Simulation.

(** ** Every handler commutes with forgetting the flag *)

Lemma erase_on_page f w : erase (on_page f w) = on_page f (erase w).
Proof. reflexivity. Qed.

Lemma erase_on_closure c f g w :
  (forall m, forget (f m) = g (forget m)) ->
  erase (on_closure c f w) = on_closure c g (erase w).
Proof.
  intros Hfg. unfold erase, on_closure. simpl. f_equal.
  apply list_fmap_alter. by apply Forall_forall.
Qed.

Lemma erase_set_warningShown c b w :
  erase (on_closure c (set_warningShown b) w) = erase w.
Proof.
  rewrite (erase_on_closure c _ id) by done.
  unfold on_closure, erase. simpl. f_equal. by apply list_alter_id.
Qed.

Lemma erase_lookup c w : closures (erase w) !! c = forget <$> closures w !! c.
Proof. apply list_lookup_fmap. Qed.

Lemma erase_showWarning c msg w :
  erase (showWarning c msg w) = NoFlag.showWarning c msg (erase w).
Proof.
  unfold showWarning, NoFlag.showWarning. rewrite erase_lookup.
  destruct (closures w !! c) as [m|]; [|done]. cbn.
  destruct (cheatAlert m) as [el|]; [done|].
  rewrite !erase_on_page. by rewrite (erase_on_closure c _ (NoFlag.set_cheatAlert (Some (length (elements (page w)))))).
Qed.

Lemma erase_fadeOut c w : erase (fadeOut c w) = NoFlag.fadeOut c (erase w).
Proof.
  unfold fadeOut, NoFlag.fadeOut. rewrite erase_lookup.
  destruct (closures w !! c) as [m|]; [|done]. cbn.
  by destruct (cheatAlert m).
Qed.

Lemma erase_onVisibilityChange c w :
  erase (onVisibilityChange c w) = NoFlag.onVisibilityChange c (erase w).
Proof.
  unfold onVisibilityChange, NoFlag.onVisibilityChange. cbn.
  destruct (hidden (page w)); [|done].
  rewrite erase_showWarning, erase_set_warningShown.
  by rewrite (erase_on_closure c _ NoFlag.incr_tabSwitchCount).
Qed.

Lemma erase_onBlur c w : erase (onBlur c w) = NoFlag.onBlur c (erase w).
Proof.
  unfold onBlur, NoFlag.onBlur. cbv zeta.
  rewrite erase_showWarning, erase_set_warningShown.
  by rewrite (erase_on_closure c _ NoFlag.incr_tabSwitchCount).
Qed.

Lemma erase_devtoolsPoll c w :
  erase (devtoolsPoll c w) = NoFlag.devtoolsPoll c (erase w).
Proof.
  unfold devtoolsPoll, NoFlag.devtoolsPoll. cbv zeta. rewrite erase_lookup.
  change (page (erase w)) with (page w). destruct (_ || _).
  - destruct (closures w !! c) as [m|]; [|done]. cbn.
    destruct (devtoolsOpen m); [done|]. cbn.
    rewrite erase_showWarning.
    by rewrite (erase_on_closure c _ (NoFlag.set_devtoolsOpen true)).
  - by rewrite (erase_on_closure c _ (NoFlag.set_devtoolsOpen false)).
Qed.

Lemma erase_run_callback cb w :
  erase (run_callback cb w) = NoFlag.run_callback cb (erase w).
Proof.
  destruct cb; simpl.
  - apply erase_onVisibilityChange.
  - apply erase_onBlur.
  - apply erase_devtoolsPoll.
  - apply erase_fadeOut.
Qed.

Lemma erase_load w : erase (load w) = NoFlag.load (erase w).
Proof.
  unfold load, NoFlag.load. cbn. destruct (__ECHO_VIVA_SECURITY_LOADED__ (page w)); [done|].
  unfold erase. cbn. by rewrite fmap_app, length_fmap.
Qed.

Lemma erase_accessor w :
  NoFlag.getEchoVivaCheatCount (erase w) = getEchoVivaCheatCount w.
Proof.
  unfold NoFlag.getEchoVivaCheatCount, getEchoVivaCheatCount. cbn.
  destruct (cheatCountAccessor (page w)) as [c|]; [|done].
  rewrite list_lookup_fmap. by destruct (closures w !! c).
Qed.

(** C8.  [warningShown] is dead state.  Run from the same world on the same
    events, the script and the script without the flag stay in step: the
    world of the one is the world of the other with the flag forgotten.  So
    they show the same page (DOM and notice, pending timers, console), the
    same history of warnings, and their accessors return the same count.
    In particular the value of the flag never influences a run. *)
Theorem warningShown_is_dead_state (w0 : World Monitor) (evs : list Event) :
  let w := browser_run evs w0 in
  let w' := NoFlag.browser_run evs (erase w0) in
  erase w = w'
  /\ page w' = page w
  /\ warnings (page w') = warnings (page w)
  /\ NoFlag.getEchoVivaCheatCount w' = getEchoVivaCheatCount w
  /\ forall b c,
       erase (browser_run evs (on_closure c (set_warningShown b) w0)) = erase w.
Proof.
  intros w w'.
  assert (forall w1, erase (browser_run evs w1) = NoFlag.browser_run evs (erase w1))
    as Hsim.
  { intros w1. apply sim_run.
    - done.
    - apply erase_on_page.
    - apply erase_run_callback.
    - apply erase_load. }
  subst w w'. rewrite <- Hsim.
  repeat split; try done.
  - apply erase_accessor.
  - intros b c. by rewrite !Hsim, erase_set_warningShown.
Qed.

(** ** The interval in the event loop

    [poll_at] is what the browser runs once per second: from a state whose
    interval is due in 1000 ms, [Elapse 1000] runs the fades that fall due
    and then exactly one [devtoolsPoll], at the end of the second. *)

Lemma poll_view_eq w w' :
  poll_view w' = poll_view w ->
  closures w' = closures w
  /\ warnings (page w') = warnings (page w)
  /\ intervals (page w') = intervals (page w)
  /\ dimensions (page w') = dimensions (page w).
Proof.
  intros E. split; [exact (f_equal (fun v => v.1.1.1) E)|].
  split; [exact (f_equal (fun v => v.1.1.2) E)|].
  split; [exact (f_equal (fun v => v.1.2) E)|exact (f_equal snd E)].
Qed.

Lemma fadeOut_poll_view w :
  poll_view (fadeOut 0 w) = poll_view w /\
  now (page (fadeOut 0 w)) = now (page w).
Proof.
  unfold fadeOut. destruct (closures w !! 0) as [m|]; [|done].
  by destruct (cheatAlert m).
Qed.

Lemma due_timeouts_fade (Q : Z * Callback -> Prop)
    `{!forall e, Decision (Q e)} w :
  installed w -> Forall (fun cb => cb = FadeOut 0) (filter Q (timeouts (page w))).*2.
Proof.
  intros Hw. apply Forall_fmap. eapply Forall_impl.
  - apply Forall_filter_keep, (in_timeouts _ Hw).
  - by intros [t cb].
Qed.

Lemma installed_filter_timeouts (Q : Z * Callback -> Prop)
    `{!forall e, Decision (Q e)} w :
  installed w -> installed (on_page (set_timeouts (filter Q)) w).
Proof.
  intros [Hf Ha Hv Hb Hi Ht Hc Hal].
  constructor; simpl; try done. by apply Forall_filter_keep.
Qed.

Lemma run_timeouts_poll_view w :
  installed w ->
  installed (run_timeouts run_callback w)
  /\ poll_view (run_timeouts run_callback w) = poll_view w
  /\ now (page (run_timeouts run_callback w)) = now (page w).
Proof.
  intros H. unfold run_timeouts. cbv zeta.
  apply (dispatch_invariant
           (fun w' => poll_view w' = poll_view w /\ now (page w') = now (page w))).
  - eapply Forall_impl; [by apply due_timeouts_fade|].
    intros cb ->. split; [done|]. intros w1 _ [<- <-]. apply fadeOut_poll_view.
  - by apply installed_filter_timeouts.
  - done.
Qed.

Lemma showWarning_poll_fields msg w :
  intervals (page (showWarning 0 msg w)) = intervals (page w)
  /\ dimensions (page (showWarning 0 msg w)) = dimensions (page w).
Proof.
  unfold showWarning. destruct (closures w !! 0) as [m|]; [|done].
  by destruct (cheatAlert m).
Qed.

Lemma devtoolsPoll_poll_fields w :
  intervals (page (devtoolsPoll 0 w)) = intervals (page w)
  /\ dimensions (page (devtoolsPoll 0 w)) = dimensions (page w)
  /\ now (page (devtoolsPoll 0 w)) = now (page w).
Proof.
  unfold devtoolsPoll. destruct (_ || _); [|done].
  destruct (closures w !! 0) as [m|]; [|done].
  destruct (negb (devtoolsOpen m)); [|done].
  rewrite showWarning_now.
  by destruct (showWarning_poll_fields MSG_DEVTOOLS
                 (on_closure 0 (set_devtoolsOpen true) w)) as [-> ->].
Qed.

Lemma set_dimensions_same p :
  set_dimensions (outerWidth p) (innerWidth p) (outerHeight p) (innerHeight p) p = p.
Proof. by destruct p. Qed.

Lemma devtoolsPoll_spec w :
  installed w ->
  let d := dimensions (page w) in
  devtoolsOpen (monitor (devtoolsPoll 0 w)) = breach d
  /\ warnings (page (devtoolsPoll 0 w)) =
       warnings (page w) ++
       (if breach d && negb (devtoolsOpen (monitor w))
        then [(now (page w), MSG_DEVTOOLS)] else []).
Proof.
  intros H d. destruct (poll_at_spec d w H) as (_ & Hflag & _ & Hwarn).
  unfold poll_at in Hflag, Hwarn. simpl in Hflag, Hwarn.
  replace (on_page _ w) with w in Hflag, Hwarn; [done|].
  destruct w as [p cl]. unfold on_page. simpl. by rewrite set_dimensions_same.
Qed.

Lemma run_intervals_idle due w :
  armed due w -> (now (page w) < due)%Z -> run_intervals run_callback w = w.
Proof.
  destruct w as [[] cl]. unfold armed, run_intervals, on_page, set_intervals.
  simpl. intros -> Hlt. rewrite filter_cons_False, filter_nil by (simpl; lia).
  simpl. by rewrite decide_False by lia.
Qed.

Lemma run_intervals_fire due w :
  armed due w -> (due <= now (page w))%Z ->
  run_intervals run_callback w =
  devtoolsPoll 0
    (on_page (set_intervals
       (fun _ => [mkInterval (due + POLL_PERIOD) POLL_PERIOD (DevtoolsPoll 0)])) w).
Proof.
  destruct w as [[] cl]. unfold armed, run_intervals, on_page, set_intervals.
  simpl. intros -> Hle. rewrite filter_cons_True, filter_nil by (simpl; lia).
  simpl. by rewrite decide_True by lia.
Qed.

Lemma millisecond_before_due due w :
  installed w -> armed due w -> (now (page w) + 1 < due)%Z ->
  installed (millisecond run_callback w)
  /\ poll_view (millisecond run_callback w) = poll_view w
  /\ now (page (millisecond run_callback w)) = (now (page w) + 1)%Z.
Proof.
  intros H Harm Hlt. unfold millisecond. cbv zeta.
  set (w1 := on_page _ w).
  assert (installed w1) as H1 by (by apply installed_stable_page).
  destruct (run_timeouts_poll_view w1 H1) as (H2 & Hv & Hn).
  set (w2 := run_timeouts run_callback w1) in *.
  rewrite (run_intervals_idle due).
  - done.
  - unfold armed. by injection Hv as _ _ -> _.
  - rewrite Hn. simpl. lia.
Qed.

Lemma elapse_succ ms (w : World Monitor) :
  elapse run_callback (N.succ ms) w =
  millisecond run_callback (elapse run_callback ms w).
Proof. unfold elapse. apply N.iter_succ. Qed.

Lemma elapse_before_due due ms w :
  installed w -> armed due w -> (now (page w) + Z.of_N ms < due)%Z ->
  installed (elapse run_callback ms w)
  /\ poll_view (elapse run_callback ms w) = poll_view w
  /\ now (page (elapse run_callback ms w)) = (now (page w) + Z.of_N ms)%Z.
Proof.
  intros H Harm.
  induction ms as [|ms IH] using N.peano_ind; intros Hlt.
  - change (elapse run_callback 0 w) with w.
    split; [done|]. split; [done|]. lia.
  - rewrite elapse_succ. destruct IH as (H1 & Hv & Hn); [lia|].
    destruct (millisecond_before_due due _ H1) as (H2 & Hv2 & Hn2).
    + unfold armed. rewrite <- Harm. by destruct (poll_view_eq _ _ Hv) as (_ & _ & -> & _).
    + lia.
    + split; [done|]. split; [congruence|]. lia.
Qed.

(** Time passes up to the instant the interval is due: the fades that fall
    due run, then one poll with the dimensions of the window; the interval
    is armed for one period later. *)
Lemma elapse_to_due due ms w :
  installed w -> armed due w -> (now (page w) + Z.of_N ms + 1 = due)%Z ->
  let w' := elapse run_callback (N.succ ms) w in
  let d := dimensions (page w) in
  installed w'
  /\ armed (due + POLL_PERIOD) w'
  /\ now (page w') = due
  /\ dimensions (page w') = d
  /\ devtoolsOpen (monitor w') = breach d
  /\ warnings (page w') =
       warnings (page w) ++
       (if breach d && negb (devtoolsOpen (monitor w))
        then [(due, MSG_DEVTOOLS)] else []).
Proof.
  intros H Harm Hdue w' d. subst w'. rewrite elapse_succ.
  destruct (elapse_before_due due ms w H Harm) as (H1 & Hv & Hn); [lia|].
  set (w1 := elapse run_callback ms w) in *. clearbody w1.
  unfold millisecond. cbv zeta. set (w2 := on_page _ w1).
  assert (installed w2) as H2 by (by apply installed_stable_page).
  destruct (run_timeouts_poll_view w2 H2) as (H3 & Hv3 & Hn3).
  set (w3 := run_timeouts run_callback w2) in *. clearbody w3.
  assert (poll_view w3 = poll_view w) as Hv'
    by (rewrite Hv3; subst w2; exact Hv).
  assert (now (page w3) = due) as Hn'
    by (rewrite Hn3; subst w2; simpl; rewrite Hn; lia).
  clear Hv3 Hn3 H2. clearbody w2.
  destruct (poll_view_eq _ _ Hv') as (Ec & Ew & Ei & Ed).
  rewrite (run_intervals_fire due).
  2: { unfold armed. by rewrite Ei. }
  2: { lia. }
  set (w4 := on_page _ w3).
  assert (installed w4) as H4.
  { subst w4. destruct H3 as [Hf Ha Hv4 Hb Hi Ht Hc Hal].
    constructor; simpl; try done. by eexists. }
  destruct (devtoolsPoll_poll_fields w4) as (Hiv5 & Hd5 & Hn5).
  destruct (devtoolsPoll_spec w4 H4) as (Hflag & Hwarn).
  assert (dimensions (page w4) = d) as Hd4 by (subst w4 d; exact Ed).
  assert (monitor w4 = monitor w) as Hm4
    by (subst w4; unfold monitor; simpl; by rewrite Ec).
  assert (warnings (page w4) = warnings (page w)) as Hw4 by (subst w4; exact Ew).
  assert (now (page w4) = due) as Hn4 by (subst w4; exact Hn').
  split; [by apply devtoolsPoll_installed|].
  split; [unfold armed; rewrite Hiv5; subst w4; reflexivity|].
  split; [congruence|]. split; [congruence|].
  rewrite Hflag, Hwarn, Hd4, Hm4, Hw4, Hn4. done.
Qed.

Lemma load_armed w : pristine w -> armed (now (page w) + 1000) (load w).
Proof.
  intros [Hg Hf Ha Hv Hb Ht Hi Hc]. destruct w as [p cl]. simpl in *. subst cl.
  unfold load, armed. simpl. rewrite Hf. simpl. by rewrite Hi.
Qed.

Lemma run_cons e evs w :
  browser_run (e :: evs) w = browser_run evs (browser_step e w).
Proof. reflexivity. Qed.

Lemma step_Elapse ms w : browser_step (Elapse ms) w = elapse run_callback ms w.
Proof. reflexivity. Qed.

Lemma run_seconds ds w :
  installed w -> armed (now (page w) + 1000) w ->
  let w' := browser_run (seconds ds) w in
  installed w'
  /\ armed (now (page w') + 1000) w'
  /\ devtoolsOpen (monitor w') = final (devtoolsOpen (monitor w)) (breach <$> ds)
  /\ (warnings (page w')).*2 =
       (warnings (page w)).*2 ++
       replicate (rising (devtoolsOpen (monitor w)) (breach <$> ds)) MSG_DEVTOOLS.
Proof.
  revert w. induction ds as [|d ds IH]; intros w H Harm.
  - simpl. by rewrite app_nil_r.
  - change (seconds (d :: ds)) with (resize d :: Elapse 1000 :: seconds ds).
    rewrite !run_cons, step_Elapse.
    replace 1000%N with (N.succ 999) by reflexivity.
    set (w1 := browser_step (resize d) w).
    assert (installed w1) as H1 by (by apply installed_stable_page).
    assert (armed (now (page w1) + 1000) w1) as Harm1 by exact Harm.
    destruct (elapse_to_due (now (page w1) + 1000) 999 w1 H1 Harm1)
      as (H2 & Harm2 & Hn2 & _ & Hflag2 & Hwarn2); [lia|].
    set (w2 := elapse run_callback (N.succ 999) w1) in *. clearbody w2.
    rewrite <- Hn2 in Harm2.
    destruct (IH w2 H2 Harm2) as (H3 & Harm3 & Hflag3 & Hwarn3).
    cbv zeta. split; [done|]. split; [done|].
    assert (dimensions (page w1) = d) as Hd1 by (by destruct d).
    rewrite Hd1 in Hflag2, Hwarn2.
    change (monitor w1) with (monitor w) in Hwarn2.
    change (warnings (page w1)) with (warnings (page w)) in Hwarn2.
    split.
    + by rewrite Hflag3, Hflag2.
    + rewrite Hwarn3, Hwarn2, Hflag2, fmap_app, <- app_assoc. f_equal.
      simpl. by destruct (breach d && negb (devtoolsOpen (monitor w))).
Qed.

(** C3.  Ticks of the interval, each with the window dimensions it sees,
    from any state [w] the installed monitor can be in.
    - While every tick is quiet (both deltas below 160) no warning is
      shown.
    - In general the devtools warnings shown are one per tick that breaches
      while the flag is clear ([rising]).
    - From a clear flag, quiet ticks followed by a run of breached ticks
      show exactly one devtools warning, however long the run.
    - A run of breached ticks, then quiet ticks, then breached ticks again
      show exactly two: one per run.
    - In the event loop: when the script is loaded and whole seconds pass,
      the window having the dimensions [ds] one after the other, the
      warnings shown are those devtools warnings and the flag is what the
      last second's tick saw. *)
Theorem devtools_warning_once_per_breach
    (w0 : World Monitor) (evs : list Event) :
  pristine w0 ->
  let w := browser_run (Inject :: evs) w0 in
  let t := now (page w) in
  (forall ds, Forall quiet ds -> warnings (page (polls ds w)) = warnings (page w))
  /\ (forall ds,
        warnings (page (polls ds w)) =
        warnings (page w) ++
        replicate (rising (devtoolsOpen (monitor w)) (breach <$> ds))
                  (t, MSG_DEVTOOLS))
  /\ (forall qs bs,
        devtoolsOpen (monitor w) = false ->
        Forall quiet qs -> Forall breached bs -> bs <> [] ->
        warnings (page (polls (qs ++ bs) w)) =
        warnings (page w) ++ [(t, MSG_DEVTOOLS)]
        /\ devtoolsOpen (monitor (polls (qs ++ bs) w)) = true)
  /\ (forall bs qs bs',
        devtoolsOpen (monitor w) = false ->
        Forall breached bs -> bs <> [] ->
        Forall quiet qs -> qs <> [] ->
        Forall breached bs' -> bs' <> [] ->
        warnings (page (polls (bs ++ qs ++ bs') w)) =
        warnings (page w) ++ [(t, MSG_DEVTOOLS); (t, MSG_DEVTOOLS)])
  /\ (forall ds,
        let w1 := browser_run (Inject :: seconds ds) w0 in
        (warnings (page w1)).*2 =
          replicate (rising false (breach <$> ds)) MSG_DEVTOOLS
        /\ devtoolsOpen (monitor w1) = final false (breach <$> ds)).
Proof.
  intros Hw0 w t.
  assert (installed w) as Hw by (by apply injected_installed).
  assert (forall ds,
        warnings (page (polls ds w)) =
        warnings (page w) ++
        replicate (rising (devtoolsOpen (monitor w)) (breach <$> ds))
                  (t, MSG_DEVTOOLS)) as Hgen
    by (intros ds; apply (polls_spec ds w Hw)).
  split; [|split; [exact Hgen|split; [|split]]].
  - intros ds Hq. rewrite Hgen, rising_quiet by (by apply Forall_breach_quiet).
    apply app_nil_r.
  - intros qs bs Hflag Hq Hb Hne.
    destruct (rising_breached false (breach <$> bs))
      as [Hr Hl]; [by apply Forall_breach_breached|by destruct bs|].
    split.
    + rewrite Hgen, Hflag, fmap_app, rising_app.
      rewrite rising_quiet by (by apply Forall_breach_quiet).
      by rewrite final_quiet, Hr by (by apply Forall_breach_quiet).
    + destruct (polls_spec (qs ++ bs) w Hw) as (_ & _ & -> & _).
      rewrite Hflag, fmap_app, final_app.
      by rewrite final_quiet by (by apply Forall_breach_quiet).
  - intros bs qs bs' Hflag Hb Hne Hq Hqne Hb' Hne'.
    destruct (rising_breached false (breach <$> bs))
      as [Hr Hl]; [by apply Forall_breach_breached|by destruct bs|].
    destruct (rising_breached false (breach <$> bs'))
      as [Hr' _]; [by apply Forall_breach_breached|by destruct bs'|].
    assert (final true (breach <$> qs) = false) as Hfq.
    { destruct qs as [|q qs]; [done|]. apply Forall_breach_quiet in Hq.
      simpl in *. inversion Hq as [|? ? -> Hq']. by apply final_quiet. }
    rewrite Hgen, Hflag, !fmap_app, !rising_app, Hr, Hl, Hfq, Hr'.
    by rewrite rising_quiet by (by apply Forall_breach_quiet).
  - intros ds w1. subst w1. rewrite run_cons.
    destruct (run_seconds ds (load w0)) as (_ & _ & Hflag & Hwarn).
    + by apply load_installed.
    + replace (now (page (load w0))) with (now (page w0)); [by apply load_armed|].
      unfold load. simpl. by destruct (__ECHO_VIVA_SECURITY_LOADED__ (page w0)).
    + assert (devtoolsOpen (monitor (load w0)) = false
              /\ warnings (page (load w0)) = []) as [Hf0 Hw00].
      { destruct Hw0 as [Hg Hf Ha Hv Hb Ht Hi Hc]. destruct w0 as [p cl].
        simpl in *. subst cl. unfold load, monitor. simpl. by rewrite Hf. }
      change (browser_step Inject w0) with (load w0).
      by rewrite Hflag, Hwarn, Hf0, Hw00.
Qed.

Lemma devtools_warning_once_per_breach_witness :
  pristine blank /\
  let d := mkDimensions 1480 1280 800 720 in
  warnings (page (polls ([] ++ [d; d; d]) (browser_run [Inject] blank)))
  = [(0%Z, MSG_DEVTOOLS)].
Proof.
  assert (pristine blank) as Hb by (constructor; reflexivity).
  split; [exact Hb|]. intros d.
  destruct (devtools_warning_once_per_breach blank [] Hb) as (_ & _ & H & _).
  destruct (H [] [d; d; d]) as [Hw _].
  - reflexivity.
  - constructor.
  - repeat constructor; vm_compute; reflexivity.
  - discriminate.
  - exact Hw.
Defined.

(** The scenario of the specification: a width delta of 200 for three
    consecutive ticks shows exactly one devtools warning, at the first
    tick, and the flag stays set. *)
Example three_breached_ticks :
  let w := browser_run [Inject; Resize 1480 1280 800 720; Elapse 3000] blank in
  warnings (page w) = [(1000%Z, MSG_DEVTOOLS)]
  /\ devtoolsOpen (monitor w) = true
  /\ getEchoVivaCheatCount w = Some 0%Z.
Proof. vm_compute. done. Qed.

(** ** No fade before the earliest pending fade is due *)

Lemma showWarning_notice_opacity msg w :
  installed w -> notice_opacity (showWarning 0 msg w) <> Some "0".
Proof.
  intros H. unfold notice_opacity. rewrite showWarning_notice by done.
  destruct (notice w) as [e|]; simpl.
  - by rewrite lookup_insert_eq.
  - by vm_compute.
Qed.







(** ** The fade at its due time *)







(** * Further properties of the script *)

(** ** Lifting invariants that may look at the clock and the timer queues *)

Lemma showWarning_console c msg w :
  console (page (showWarning c msg w)) = console (page w).
Proof.
  unfold showWarning. destruct (closures w !! c) as [m|]; [|done].
  by destruct (cheatAlert m).
Qed.

Lemma rearmed_installed due w :
  installed w ->
  installed (on_page (set_intervals
    (fun _ => [mkInterval due POLL_PERIOD (DevtoolsPoll 0)])) w).
Proof.
  intros [Hf Ha Hv Hb Hi Ht Hc Hal]. constructor; simpl; try done. by eexists.
Qed.

(** If the timeouts due at a tick and each part of a poll preserve [P],
    so does a millisecond. *)
Lemma millisecond_from_parts (P : World Monitor -> Prop) :
  (forall w, installed w -> P w ->
     P (run_timeouts run_callback (on_page (fun p => set_now (now p + 1)%Z p) w))) ->
  (forall f w, P w -> P (on_page (set_intervals f) w)) ->
  (forall f w, (forall m, cheatAlert (f m) = cheatAlert m) ->
     P w -> P (on_closure 0 f w)) ->
  (forall msg w, installed w -> P w -> P (showWarning 0 msg w)) ->
  forall w, installed w -> P w -> P (millisecond run_callback w).
Proof.
  intros P_timeouts P_rearm P_closure P_showWarning w H HP.
  unfold millisecond. cbv zeta. set (w1 := on_page _ w).
  assert (installed w1) as H1 by (by apply installed_stable_page).
  destruct (run_timeouts_poll_view w1 H1) as (H2 & _ & _).
  assert (P (run_timeouts run_callback w1)) as HP2 by (by apply P_timeouts).
  set (w2 := run_timeouts run_callback w1) in *. clearbody w2.
  destruct (in_intervals _ H2) as [due Harm].
  destruct (decide (now (page w2) < due)%Z) as [Hidle|Hfire].
  - by rewrite (run_intervals_idle due).
  - rewrite (run_intervals_fire due) by (done || lia).
    apply devtoolsPoll_notice_invariant; try done.
    + by apply rearmed_installed.
    + by apply P_rearm.
Qed.

(** The timeouts due at a tick preserve [P] if leaving the queue and fading
    do. *)
Lemma timeouts_from_tick (P : World Monitor -> Prop) :
  (forall w, installed w -> P w ->
     let w1 := on_page (fun p => set_now (now p + 1)%Z p) w in
     P (on_page (set_timeouts
          (filter (fun e => ~ (e.1 <= now (page w1))%Z))) w1)) ->
  (forall w, installed w -> P w -> P (fadeOut 0 w)) ->
  forall w, installed w -> P w ->
    P (run_timeouts run_callback (on_page (fun p => set_now (now p + 1)%Z p) w)).
Proof.
  intros P_tick P_fadeOut w H HP. unfold run_timeouts. cbv zeta.
  set (w1 := on_page _ w).
  assert (installed w1) as H1 by (by apply installed_stable_page).
  apply (dispatch_invariant P).
  - eapply Forall_impl; [by apply due_timeouts_fade|].
    intros cb ->. split; [done|]. apply P_fadeOut.
  - by apply installed_filter_timeouts.
  - by apply P_tick.
Qed.

Section ClockInvariants.
Variable P : World Monitor -> Prop.
Hypothesis P_millisecond :
  forall w, installed w -> P w -> P (millisecond run_callback w).

Lemma elapse_clock_invariant ms w :
  installed w -> P w -> P (elapse run_callback ms w).
Proof.
  intros H HP.
  enough (installed (elapse run_callback ms w) /\ P (elapse run_callback ms w))
    as [_ ?] by done.
  unfold elapse.
  apply (N.iter_invariant ms _ _ (fun w => installed w /\ P w)); [|done].
  intros w' [H' HP']. split; [|by apply P_millisecond].
  by apply (millisecond_invariant (fun _ => True)).
Qed.

Hypothesis P_closure :
  forall f w, (forall m, cheatAlert (f m) = cheatAlert m) ->
              P w -> P (on_closure 0 f w).
Hypothesis P_showWarning :
  forall msg w, installed w -> P w -> P (showWarning 0 msg w).
Hypothesis P_log : forall line w, P w -> P (on_page (console_log line) w).
Hypothesis P_hidden : forall h w, P w -> P (on_page (set_hidden h) w).
Hypothesis P_resize :
  forall ow iw oh ih w, P w -> P (on_page (set_dimensions ow iw oh ih) w).

Lemma step_clock_invariant e w :
  installed w -> P w -> P (browser_step e w).
Proof.
  intros H HP. destruct e as [|h| |ow iw oh ih|ms]; simpl.
  - rewrite load_again by apply H. by apply P_log.
  - rewrite (in_visibility _ H). simpl.
    unfold onVisibilityChange. simpl. destruct h; [|by apply P_hidden].
    apply P_showWarning.
    + do 2 (apply on_closure_installed; [done|]). by apply installed_stable_page.
    + do 2 (apply P_closure; [done|]). by apply P_hidden.
  - rewrite (in_blur _ H). simpl. unfold onBlur. apply P_showWarning.
    + do 2 (apply on_closure_installed; [done|]). by apply console_log_installed.
    + do 2 (apply P_closure; [done|]). by apply P_log.
  - by apply P_resize.
  - by apply elapse_clock_invariant.
Qed.

Lemma run_clock_invariant evs w :
  installed w -> P w -> P (browser_run evs w).
Proof.
  revert w. induction evs as [|e evs IH]; intros w H HP; [done|].
  rewrite run_cons. apply IH; [by apply step_installed|].
  by apply step_clock_invariant.
Qed.
End ClockInvariants.

(** ** Before the script is there *)

Lemma millisecond_pristine w :
  pristine w -> pristine (millisecond run_callback w).
Proof.
  intros [Hg Hf Ha Hv Hb Ht Hi Hc]. destruct w as [[] cl]. simpl in *. subst.
  by constructor.
Qed.

Lemma step_pristine e w :
  e <> Inject -> pristine w -> pristine (browser_step e w).
Proof.
  intros He H. destruct e as [|h| |ow iw oh ih|ms]; [done|..].
  - destruct H as [Hg Hf Ha Hv Hb Ht Hi Hc]. destruct w as [[] cl].
    simpl in *. subst. by constructor.
  - destruct H as [Hg Hf Ha Hv Hb Ht Hi Hc]. destruct w as [[] cl].
    simpl in *. subst. by constructor.
  - destruct H as [Hg Hf Ha Hv Hb Ht Hi Hc]. by constructor.
  - simpl. unfold elapse. apply N.iter_invariant; [|done].
    apply millisecond_pristine.
Qed.

Lemma run_pristine evs w :
  Forall (fun e => e <> Inject) evs -> pristine w -> pristine (browser_run evs w).
Proof.
  intros Hevs. revert w. induction Hevs as [|e evs He _ IH]; intros w H; [done|].
  rewrite run_cons. by apply IH, step_pristine.
Qed.

Lemma run_app evs1 evs2 w :
  browser_run (evs1 ++ evs2) w = browser_run evs2 (browser_run evs1 w).
Proof. unfold browser_run, run. apply foldl_app. Qed.

(** X1.  As long as the script has not been injected the accessor is
    undefined, and what happens then is not counted: whatever events come
    before the injection, visibility changes and blurs among them, the count
    after it is the number of suspicious events that follow it. *)
Theorem events_before_injection_are_not_counted
    (w : World Monitor) (pre evs : list Event) :
  pristine w ->
  Forall (fun e => e <> Inject) pre ->
  getEchoVivaCheatCount (browser_run pre w) = None
  /\ getEchoVivaCheatCount (browser_run (pre ++ Inject :: evs) w)
     = Some (Z.of_nat (length (List.filter suspicious evs))).
Proof.
  intros Hw Hpre. pose proof (run_pristine pre w Hpre Hw) as Hp. split.
  - unfold getEchoVivaCheatCount. by rewrite (pr_accessor _ Hp).
  - rewrite run_app, run_cons.
    change (browser_step Inject ?x) with (load x).
    pose proof (load_installed _ Hp) as Hl.
    rewrite accessor_installed by (by apply run_installed).
    by rewrite run_counter, load_counter.
Qed.

Lemma events_before_injection_are_not_counted_witness :
  pristine blank /\
  getEchoVivaCheatCount
    (browser_run ([Blur; VisibilityChange true; Elapse 1500]
                  ++ Inject :: [Blur; Elapse 10; VisibilityChange true]) blank)
  = Some 2%Z.
Proof.
  assert (pristine blank) as Hb by (constructor; reflexivity).
  split; [exact Hb|].
  refine (proj2 (events_before_injection_are_not_counted blank
    [Blur; VisibilityChange true; Elapse 1500]
    [Blur; Elapse 10; VisibilityChange true] Hb _)).
  repeat constructor; discriminate.
Defined.

(** ** The console *)

Lemma fadeOut_console c w : console (page (fadeOut c w)) = console (page w).
Proof.
  unfold fadeOut. destruct (closures w !! c) as [m|]; [|done].
  by destruct (cheatAlert m).
Qed.

Lemma elapse_console ms w :
  installed w -> console (page (elapse run_callback ms w)) = console (page w).
Proof.
  intros H.
  apply (elapse_clock_invariant (fun w' => console (page w') = console (page w)));
    [|done..].
  apply millisecond_from_parts.
  - apply timeouts_from_tick; [done|]. intros w1 _ <-. apply fadeOut_console.
  - done.
  - done.
  - intros msg w1 _ <-. apply showWarning_console.
Qed.

Lemma step_console e w :
  installed w ->
  console (page (browser_step e w)) = console (page w) ++ log_of e.
Proof.
  intros H. destruct e as [|h| |ow iw oh ih|ms]; simpl.
  - by rewrite load_again by apply H.
  - rewrite (in_visibility _ H). simpl. unfold onVisibilityChange. simpl.
    destruct h; [rewrite showWarning_console|]; simpl; by rewrite app_nil_r.
  - rewrite (in_blur _ H). simpl. unfold onBlur.
    by rewrite showWarning_console.
  - by rewrite app_nil_r.
  - rewrite elapse_console by done. by rewrite app_nil_r.
Qed.

Lemma run_console evs w :
  installed w ->
  console (page (browser_run evs w)) = console (page w) ++ (evs ≫= log_of).
Proof.
  revert w. induction evs as [|e evs IH]; intros w H.
  - simpl. by rewrite app_nil_r.
  - rewrite run_cons, IH by (by apply step_installed).
    rewrite step_console by done. by rewrite bind_cons, app_assoc.
Qed.

(** X6.  What the script writes to the console over a run: "SECURITY
    loaded!" once per evaluation of the script, the first one and every
    re-injection, and "Window lost focus" once per blur, in the order of the
    events.  Visibility changes, devtools polls, fades and warnings log
    nothing. *)
Theorem console_is_one_line_per_injection_and_blur
    (w : World Monitor) (evs : list Event) :
  pristine w ->
  console (page (browser_run (Inject :: evs) w))
  = console (page w) ++ ((Inject :: evs) ≫= log_of).
Proof.
  intros Hw. rewrite run_cons, run_console by (by apply load_installed).
  rewrite bind_cons, app_assoc. f_equal.
  change (browser_step Inject w) with (load w).
  unfold load. simpl. by rewrite (pr_flag _ Hw).
Qed.

Lemma console_is_one_line_per_injection_and_blur_witness :
  pristine blank /\
  console (page (browser_run
    [Inject; Blur; VisibilityChange true; Inject; Elapse 5000; Blur] blank))
  = ["SECURITY loaded!"; "Window lost focus"; "SECURITY loaded!";
     "Window lost focus"].
Proof.
  assert (pristine blank) as Hb by (constructor; reflexivity).
  split; [exact Hb|].
  exact (console_is_one_line_per_injection_and_blur blank
           [Blur; VisibilityChange true; Inject; Elapse 5000; Blur] Hb).
Defined.

(** ** One warning per counted event *)

Lemma focus_messages_snoc w w' t msg :
  warnings (page w') = warnings (page w) ++ [(t, msg)] ->
  focus_messages w' =
  focus_messages w ++ (if decide (msg <> MSG_DEVTOOLS) then [msg] else []).
Proof.
  intros E. unfold focus_messages. rewrite E, fmap_app, filter_app.
  by f_equal.
Qed.

Lemma devtoolsPoll_focus_messages w :
  installed w -> focus_messages (devtoolsPoll 0 w) = focus_messages w.
Proof.
  intros H. destruct (devtoolsPoll_spec w H) as [_ E].
  destruct (_ && _).
  - rewrite (focus_messages_snoc _ _ _ _ E).
    rewrite decide_False by (intros Hne; by apply Hne). apply app_nil_r.
  - unfold focus_messages. by rewrite E, app_nil_r.
Qed.

Lemma elapse_focus_messages ms w :
  installed w -> focus_messages (elapse run_callback ms w) = focus_messages w.
Proof.
  intros H.
  apply (elapse_invariant (fun w' => focus_messages w' = focus_messages w));
    try done.
  - intros w1 w2 E <-. unfold focus_messages. by injection E as _ _ _ ->.
  - intros w1 _ <-. unfold focus_messages. by rewrite fadeOut_warnings.
  - intros w1 H1 <-. by apply devtoolsPoll_focus_messages.
Qed.

Lemma step_focus_messages e w :
  installed w ->
  focus_messages (browser_step e w) = focus_messages w ++ message_of e.
Proof.
  intros H. destruct e as [|h| |ow iw oh ih|ms]; simpl.
  - rewrite load_again by apply H. unfold focus_messages. simpl.
    by rewrite app_nil_r.
  - rewrite (in_visibility _ H). simpl. unfold onVisibilityChange. simpl.
    destruct h.
    + erewrite focus_messages_snoc.
      2: { apply showWarning_warnings.
           do 2 (apply on_closure_installed; [done|]).
           by apply installed_stable_page. }
      by rewrite decide_True.
    + unfold focus_messages. simpl. by rewrite app_nil_r.
  - rewrite (in_blur _ H). simpl. unfold onBlur.
    erewrite focus_messages_snoc.
    2: { apply showWarning_warnings.
         do 2 (apply on_closure_installed; [done|]).
         by apply console_log_installed. }
    by rewrite decide_True.
  - unfold focus_messages. simpl. by rewrite app_nil_r.
  - rewrite elapse_focus_messages by done. by rewrite app_nil_r.
Qed.

Lemma run_focus_messages evs w :
  installed w ->
  focus_messages (browser_run evs w) = focus_messages w ++ (evs ≫= message_of).
Proof.
  revert w. induction evs as [|e evs IH]; intros w H.
  - simpl. by rewrite app_nil_r.
  - rewrite run_cons, IH by (by apply step_installed).
    rewrite step_focus_messages by done. by rewrite bind_cons, app_assoc.
Qed.

Lemma length_message_of evs :
  length (evs ≫= message_of) = length (List.filter suspicious evs).
Proof.
  induction evs as [|e evs IH]; [done|].
  rewrite bind_cons, length_app, IH.
  destruct e as [|[]| | |]; reflexivity.
Qed.

(** X5.  Every counted event shows exactly one warning, with the message of
    its kind: leaving the devtools warnings out, the messages shown since
    load are, in order, the tab-switch message for each change to hidden
    and the focus message for each blur.  So the count the accessor returns
    is the number of tab-switch and focus warnings shown. *)
Theorem one_warning_per_counted_event (w : World Monitor) (evs : list Event) :
  pristine w ->
  let w' := browser_run (Inject :: evs) w in
  focus_messages w' = evs ≫= message_of
  /\ getEchoVivaCheatCount w' = Some (Z.of_nat (length (focus_messages w'))).
Proof.
  intros Hw w'. pose proof (load_installed _ Hw) as Hl.
  assert (focus_messages w' = evs ≫= message_of) as Hm.
  { subst w'. rewrite run_cons. change (browser_step Inject w) with (load w).
    rewrite run_focus_messages by done.
    replace (focus_messages (load w)) with (@nil string); [done|].
    unfold focus_messages, load. simpl. rewrite (pr_flag _ Hw). simpl.
    by rewrite (pr_warnings _ Hw). }
  split; [done|]. rewrite Hm, length_message_of. subst w'.
  rewrite run_cons. change (browser_step Inject w) with (load w).
  rewrite accessor_installed by (by apply run_installed).
  by rewrite run_counter, load_counter.
Qed.

Lemma one_warning_per_counted_event_witness :
  pristine blank /\
  focus_messages
    (browser_run [Inject; Resize 1500 1000 800 720; Blur; Elapse 2000;
                  VisibilityChange true; VisibilityChange false] blank)
  = [MSG_FOCUS; MSG_TAB].
Proof.
  assert (pristine blank) as Hb by (constructor; reflexivity).
  split; [exact Hb|].
  exact (proj1 (one_warning_per_counted_event blank
    [Resize 1500 1000 800 720; Blur; Elapse 2000;
     VisibilityChange true; VisibilityChange false] Hb)).
Defined.

(** ** The shape of the notice *)

Lemma restyle_opacity_notice_style v o e :
  style e = notice_style o ->
  style (restyle "opacity" v e) = notice_style (Some v).
Proof.
  intros E. simpl. rewrite E. destruct o as [v'|]; simpl; [|done].
  apply insert_insert_eq.
Qed.

Lemma run_well_formed_notice evs w :
  installed w ->
  (forall e, notice w = Some e -> well_formed_notice e) ->
  forall e, notice (browser_run evs w) = Some e -> well_formed_notice e.
Proof.
  apply (run_notice_invariant
           (fun w => forall e, notice w = Some e -> well_formed_notice e)).
  - intros w1 w2 E. by rewrite (notice_view _ _ E).
  - intros f w1 Hf. by rewrite on_closure_notice.
  - intros msg w1 H1 HP e. rewrite showWarning_notice by done.
    intros [= <-]. destruct (notice w1) as [e1|].
    + destruct (HP e1 eq_refl) as (Ht & o & _ & Hs). split; [done|].
      exists (Some "1"). split; [tauto|].
      by apply (restyle_opacity_notice_style _ o).
    + split; [done|]. exists None. by split; [left|].
  - intros w1 _ HP e. rewrite fadeOut_notice.
    destruct (notice w1) as [e1|]; [|done]. intros [= <-].
    destruct (HP e1 eq_refl) as (Ht & o & _ & Hs). split; [done|].
    exists (Some "0"). split; [tauto|].
    by apply (restyle_opacity_notice_style _ o).
Qed.

Lemma NOTICE_STYLE_other k :
  k ∉ CREATION_STYLE.*1 -> NOTICE_STYLE !! k = None.
Proof.
  unfold CREATION_STYLE. simpl. rewrite !not_elem_of_cons.
  intros (?&?&?&?&?&?&?&?&?&?&?&?&_).
  unfold NOTICE_STYLE, notice_styled.
  rewrite !restyle_other by done. apply lookup_empty.
Qed.

(** X8.  In every reachable state the notice, when there is one, is a [div]
    whose text is the message of the latest warning and whose inline style
    is the creation style plus, at most, an [opacity] of "0" or "1": the
    script never gives it another tag, another style property, or another
    opacity. *)
Theorem notice_is_determined_by_message_and_opacity
    (w0 : World Monitor) (evs : list Event) (e : Element) :
  pristine w0 ->
  let w := browser_run (Inject :: evs) w0 in
  notice w = Some e ->
  exists msg o,
    e = mkElement "div" msg (notice_style o)
    /\ last_message w = Some msg
    /\ (o = None \/ o = Some "0" \/ o = Some "1")
    /\ style e !! "opacity" = o
    /\ forall k, k <> "opacity" -> k ∉ CREATION_STYLE.*1 -> style e !! k = None.
Proof.
  intros Hw0 w He. pose proof (load_installed _ Hw0) as Hl.
  assert (notice (load w0) = None) as Hn0.
  { destruct Hw0 as [Hg Hf Ha Hv Hb Ht Hi Hc]. destruct w0 as [p cl].
    simpl in *. subst cl. unfold load, notice. simpl. by rewrite Hf. }
  assert (well_formed_notice e) as (Ht & o & Ho & Hs).
  { revert He. subst w. rewrite run_cons. apply run_well_formed_notice; [done|].
    change (browser_step Inject w0) with (load w0). by rewrite Hn0. }
  assert (notice_text w = last_message w) as Hm.
  { subst w. rewrite run_cons. apply notice_text_last_message; [done|].
    change (browser_step Inject w0) with (load w0).
    unfold notice_text, last_message. rewrite Hn0.
    destruct Hw0 as [Hg Hf Ha Hv Hb Ht0 Hi Hc]. unfold load. simpl.
    rewrite Hf. simpl. by rewrite Hg. }
  unfold notice_text in Hm. rewrite He in Hm. simpl in Hm.
  exists (textContent e), o. split; [|split; [done|split; [done|split]]].
  - destruct e as [tg tx st]. simpl in *. by subst.
  - rewrite Hs. destruct o as [v|]; simpl.
    + apply lookup_insert_eq.
    + apply NOTICE_STYLE_other, opacity_not_set_at_creation.
  - intros k Hk Hc. rewrite Hs. destruct o as [v|]; simpl.
    + rewrite lookup_insert_ne by done. by apply NOTICE_STYLE_other.
    + by apply NOTICE_STYLE_other.
Qed.

Lemma notice_is_determined_by_message_and_opacity_witness :
  pristine blank /\
  exists msg o,
    mkElement "div" MSG_TAB (notice_style (Some "0"))
      = mkElement "div" msg (notice_style o)
    /\ (o = None \/ o = Some "0" \/ o = Some "1").
Proof.
  assert (pristine blank) as Hb by (constructor; reflexivity).
  split; [exact Hb|].
  destruct (notice_is_determined_by_message_and_opacity blank
              [Blur; Elapse 100; VisibilityChange true; Elapse 3950]
              (mkElement "div" MSG_TAB (notice_style (Some "0"))) Hb)
    as (msg & o & He & _ & Ho & _).
  - vm_compute. reflexivity.
  - exists msg, o. by split.
Defined.

(** ** The listeners and the interval *)

Lemma millisecond_on_schedule t0 w :
  installed w -> on_schedule t0 w -> on_schedule t0 (millisecond run_callback w).
Proof.
  intros H (due & Harm & Hdue & Hmod). unfold millisecond. cbv zeta.
  set (w1 := on_page _ w).
  assert (installed w1) as H1 by (by apply installed_stable_page).
  destruct (run_timeouts_poll_view w1 H1) as (H2 & Hv & Hn).
  set (w2 := run_timeouts run_callback w1) in *. clearbody w2.
  destruct (poll_view_eq _ _ Hv) as (_ & _ & Ei & _).
  assert (armed due w2) as Harm2 by (unfold armed; by rewrite Ei).
  assert (now (page w2) = now (page w) + 1)%Z as Hn2 by (by rewrite Hn).
  destruct (decide (now (page w2) < due)%Z) as [Hidle|Hfire].
  - rewrite (run_intervals_idle due) by done.
    exists due. split; [done|]. split; [lia|done].
  - rewrite (run_intervals_fire due) by (done || lia).
    destruct (devtoolsPoll_poll_fields
                (on_page (set_intervals (fun _ =>
                   [mkInterval (due + POLL_PERIOD) POLL_PERIOD (DevtoolsPoll 0)])) w2))
      as (Hiv & _ & Hnow).
    exists (due + POLL_PERIOD)%Z. split; [unfold armed; by rewrite Hiv|].
    rewrite Hnow. simpl. unfold POLL_PERIOD in *. split; [lia|].
    replace (due + 1000 - t0)%Z with (due - t0 + 1 * 1000)%Z by lia.
    by rewrite Z.mod_add.
Qed.

Lemma run_on_schedule t0 evs w :
  installed w -> on_schedule t0 w -> on_schedule t0 (browser_run evs w).
Proof.
  apply (run_clock_invariant (on_schedule t0)).
  - apply millisecond_on_schedule.
  - done.
  - intros msg w1 _ (due & Harm & Hdue & Hmod). exists due.
    destruct (showWarning_poll_fields msg w1) as [Hiv _].
    unfold armed. by rewrite Hiv, showWarning_now.
  - done.
  - done.
  - done.
Qed.

(** X2.  The registrations made at load are the only ones, for the whole
    life of the page: there is always exactly one [visibilitychange]
    listener, one [blur] listener and one interval, of period 1000 ms, and
    none is ever removed or added by a handler.  The interval stays on the
    schedule fixed at load: it is always armed for an instant at most
    1000 ms ahead, a whole number of seconds after the load. *)
Theorem registrations_are_those_of_load (w0 : World Monitor) (evs : list Event) :
  pristine w0 ->
  let w := browser_run (Inject :: evs) w0 in
  visibilityListeners (page w) = [OnVisibilityChange 0]
  /\ blurListeners (page w) = [OnBlur 0]
  /\ exists due,
       intervals (page w) = [mkInterval due 1000 (DevtoolsPoll 0)]
       /\ (now (page w) < due <= now (page w) + 1000)%Z
       /\ ((due - now (page w0)) mod 1000 = 0)%Z.
Proof.
  intros Hw0 w. assert (installed w) as Hw by (by apply injected_installed).
  split; [apply Hw|]. split; [apply Hw|].
  subst w. rewrite run_cons. change (browser_step Inject w0) with (load w0).
  apply (run_on_schedule (now (page w0))); [by apply load_installed|].
  exists (now (page w0) + 1000)%Z.
  assert (now (page (load w0)) = now (page w0)) as ->
    by (unfold load; simpl; by destruct (__ECHO_VIVA_SECURITY_LOADED__ (page w0))).
  split; [by apply load_armed|]. unfold POLL_PERIOD. split; [lia|].
  replace (now (page w0) + 1000 - now (page w0))%Z with (1 * 1000)%Z by lia.
  apply Z.mod_mul. lia.
Qed.

Lemma registrations_are_those_of_load_witness :
  pristine blank /\
  blurListeners (page (browser_run
    [Inject; Blur; Elapse 2500; Inject; VisibilityChange true] blank))
  = [OnBlur 0].
Proof.
  assert (pristine blank) as Hb by (constructor; reflexivity).
  split; [exact Hb|].
  exact (proj1 (proj2 (registrations_are_those_of_load blank
    [Blur; Elapse 2500; Inject; VisibilityChange true] Hb))).
Defined.

(** ** Sampling: only the tick sees the window *)

Lemma resize_step d w :
  installed w ->
  installed (browser_step (resize d) w)
  /\ closures (browser_step (resize d) w) = closures w
  /\ warnings (page (browser_step (resize d) w)) = warnings (page w)
  /\ intervals (page (browser_step (resize d) w)) = intervals (page w)
  /\ now (page (browser_step (resize d) w)) = now (page w)
  /\ dimensions (page (browser_step (resize d) w)) = d.
Proof.
  intros H. split; [by apply installed_stable_page|]. by destruct d.
Qed.

(** X7.  The heuristic samples the window once per second and sees nothing
    in between: when the window has dimensions [d] for the first part of a
    second and [d'] at its end, the flag and the warnings after the tick are
    those for [d'] alone.  A breach that is over before the tick is never
    detected, and one that starts just before it is. *)
Theorem only_the_dimensions_at_the_tick_count
    (w0 : World Monitor) (ds : list Dimensions) (d d' : Dimensions) (a b : N) :
  pristine w0 ->
  b <> 0%N -> (a + b = 1000)%N ->
  let w := browser_run (Inject :: seconds ds) w0 in
  let w' := browser_run [resize d; Elapse a; resize d'; Elapse b] w in
  devtoolsOpen (monitor w') = breach d'
  /\ warnings (page w') =
       warnings (page w) ++
       (if breach d' && negb (devtoolsOpen (monitor w))
        then [((now (page w) + 1000)%Z, MSG_DEVTOOLS)] else []).
Proof.
  intros Hw0 Hb Hab w w'.
  assert (installed w /\ armed (now (page w) + 1000) w) as [Hw Harm].
  { subst w. rewrite run_cons. change (browser_step Inject w0) with (load w0).
    destruct (run_seconds ds (load w0)) as (H1 & H2 & _).
    - by apply load_installed.
    - replace (now (page (load w0))) with (now (page w0)); [by apply load_armed|].
      unfold load. simpl. by destruct (__ECHO_VIVA_SECURITY_LOADED__ (page w0)).
    - done. }
  subst w'. clearbody w. clear Hw0.
  rewrite <- (N.succ_pred b Hb) in Hab |- *. set (k := N.pred b) in *. clearbody k.
  rewrite !run_cons, !step_Elapse. change (browser_run [] ?x) with x.
  destruct (resize_step d w Hw) as (H1 & Ec1 & Ew1 & Ei1 & En1 & _).
  set (w1 := browser_step (resize d) w) in *. clearbody w1.
  destruct (elapse_before_due (now (page w) + 1000) a w1 H1)
    as (H2 & Hv2 & Hn2); [unfold armed; by rewrite Ei1|lia|].
  destruct (poll_view_eq _ _ Hv2) as (Ec2 & Ew2 & Ei2 & _).
  set (w2 := elapse run_callback a w1) in *. clearbody w2.
  destruct (resize_step d' w2 H2) as (H3 & Ec3 & Ew3 & Ei3 & En3 & Ed3).
  set (w3 := browser_step (resize d') w2) in *. clearbody w3.
  destruct (elapse_to_due (now (page w) + 1000) k w3 H3)
    as (_ & _ & _ & _ & Hflag & Hwarn).
  - unfold armed. by rewrite Ei3, Ei2, Ei1.
  - lia.
  - rewrite Hflag, Hwarn, Ed3, Ew3, Ew2, Ew1.
    unfold monitor. by rewrite Ec3, Ec2, Ec1.
Qed.

Lemma only_the_dimensions_at_the_tick_count_witness :
  pristine blank /\
  let d := mkDimensions 1480 1280 800 720 in
  let d' := mkDimensions 1280 1280 800 720 in
  warnings (page (browser_run [resize d; Elapse 999; resize d'; Elapse 1]
                    (browser_run (Inject :: seconds []) blank)))
  = [].
Proof.
  assert (pristine blank) as Hb by (constructor; reflexivity).
  split; [exact Hb|]. intros d d'.
  refine (proj2 (only_the_dimensions_at_the_tick_count blank [] d d' 999 1
                   Hb _ _)); [discriminate|reflexivity].
Defined.

(** ** The queue of fades *)

Lemma filter_fmap {A B} (f : A -> B) (P : B -> Prop)
    `{!forall y, Decision (P y)} (l : list A) :
  filter P (f <$> l) = f <$> filter (fun x => P (f x)) l.
Proof.
  induction l as [|x l IH]; [done|]. rewrite fmap_cons.
  destruct (decide (P (f x))) as [HP|HP].
  - rewrite !filter_cons_True by done. by rewrite fmap_cons, IH.
  - by rewrite !filter_cons_False.
Qed.

Lemma fadeOut_now c w : now (page (fadeOut c w)) = now (page w).
Proof.
  unfold fadeOut. destruct (closures w !! c) as [m|]; [|done].
  by destruct (cheatAlert m).
Qed.

Lemma tick_fades_pending w :
  fades_pending w ->
  let w1 := on_page (fun p => set_now (now p + 1)%Z p) w in
  fades_pending
    (on_page (set_timeouts (filter (fun e => ~ (e.1 <= now (page w1))%Z))) w1).
Proof.
  intros [Hq Ht] w1. split.
  - unfold recent. simpl. rewrite Hq, filter_fmap. f_equal.
    unfold recent. rewrite list_filter_filter. apply list_filter_iff.
    intros [t msg]. simpl. unfold FADE_DELAY. lia.
  - simpl. eapply Forall_impl; [exact Ht|]. simpl. intros e. lia.
Qed.

Lemma fadeOut_fades_pending w : fades_pending w -> fades_pending (fadeOut 0 w).
Proof.
  unfold fades_pending, recent.
  by rewrite fadeOut_timeouts, fadeOut_warnings, fadeOut_now.
Qed.

Lemma showWarning_fades_pending msg w :
  installed w -> fades_pending w -> fades_pending (showWarning 0 msg w).
Proof.
  intros H [Hq Ht]. unfold fades_pending, recent.
  rewrite showWarning_timeouts, showWarning_warnings, showWarning_now by done.
  split.
  - rewrite filter_app, filter_cons_True by (simpl; unfold FADE_DELAY; lia).
    rewrite fmap_app, Hq. done.
  - apply Forall_app. split; [done|]. repeat constructor. simpl. lia.
Qed.

Lemma timeouts_fades_pending w :
  installed w -> fades_pending w ->
  fades_pending
    (run_timeouts run_callback (on_page (fun p => set_now (now p + 1)%Z p) w)).
Proof.
  apply (timeouts_from_tick fades_pending).
  - intros w1 _. apply tick_fades_pending.
  - intros w1 _. apply fadeOut_fades_pending.
Qed.

Lemma run_fades_pending evs w :
  installed w -> fades_pending w -> fades_pending (browser_run evs w).
Proof.
  apply (run_clock_invariant fades_pending); try done.
  - apply millisecond_from_parts; try done.
    + apply timeouts_fades_pending.
    + apply showWarning_fades_pending.
  - apply showWarning_fades_pending.
Qed.

Lemma load_fades_pending w : pristine w -> fades_pending (load w).
Proof.
  intros [Hg Hf Ha Hv Hb Ht Hi Hc]. destruct w as [p cl]. simpl in *.
  unfold load, fades_pending, recent. simpl. rewrite Hf. simpl.
  by rewrite Hg, Ht.
Qed.

(** X3.  The pending timeouts are exactly the fades of the warnings shown in
    the last 4000 ms, one per warning, in order: every call of
    [showWarning] gets its fade, no fade is cancelled, run twice or left
    behind.  So each pending timeout is a fade due within the next 4000 ms,
    and there are as many as warnings in the last 4000 ms. *)
Theorem pending_fades_are_the_recent_warnings
    (w0 : World Monitor) (evs : list Event) :
  pristine w0 ->
  let w := browser_run (Inject :: evs) w0 in
  timeouts (page w) = fade_of <$> recent w
  /\ Forall (fun e => (now (page w) < e.1 <= now (page w) + 4000)%Z
                      /\ e.2 = FadeOut 0) (timeouts (page w))
  /\ length (timeouts (page w)) = length (recent w)
  /\ length (timeouts (page w)) <= length (warnings (page w)).
Proof.
  intros Hw0 w.
  assert (fades_pending w) as [Hq Ht].
  { subst w. rewrite run_cons. change (browser_step Inject w0) with (load w0).
    apply run_fades_pending; [by apply load_installed|by apply load_fades_pending]. }
  split; [done|]. rewrite Hq, length_fmap. split; [|split; [done|]].
  - apply Forall_fmap, Forall_forall. intros [t msg] Hin.
    apply list_elem_of_filter in Hin as [Hrec Hin].
    rewrite Forall_forall in Ht. specialize (Ht _ Hin).
    simpl in *. unfold FADE_DELAY in *. split; [lia|done].
  - apply length_filter.
Qed.

Lemma pending_fades_are_the_recent_warnings_witness :
  pristine blank /\
  timeouts (page (browser_run
    [Inject; Blur; Elapse 3000; Blur; Elapse 1000; VisibilityChange true] blank))
  = [(7000%Z, FadeOut 0); (8000%Z, FadeOut 0)].
Proof.
  assert (pristine blank) as Hb by (constructor; reflexivity).
  split; [exact Hb|].
  exact (proj1 (pending_fades_are_the_recent_warnings blank
    [Blur; Elapse 3000; Blur; Elapse 1000; VisibilityChange true] Hb)).
Defined.

(** ** When the notice is faded *)

Lemma fadeOut_opacity w :
  is_Some (notice w) ->
  is_Some (notice (fadeOut 0 w)) /\ notice_opacity (fadeOut 0 w) = Some "0".
Proof.
  intros [e He]. unfold notice_opacity. rewrite fadeOut_notice, He. simpl.
  split; [by eexists|]. apply lookup_insert_eq.
Qed.

Lemma fadeOut_notice_text w : notice_text (fadeOut 0 w) = notice_text w.
Proof.
  unfold notice_text. rewrite fadeOut_notice. by destruct (notice w).
Qed.

(** A run of fades: nothing but the opacity changes, and it is 0 after at
    least one fade of an existing notice. *)
Lemma dispatch_fades cbs w :
  Forall (fun cb => cb = FadeOut 0) cbs ->
  let w' := dispatch run_callback cbs w in
  warnings (page w') = warnings (page w)
  /\ now (page w') = now (page w)
  /\ (cbs = [] -> w' = w)
  /\ (cbs <> [] -> is_Some (notice w) -> notice_opacity w' = Some "0").
Proof.
  intros Hcbs. revert w.
  induction Hcbs as [|cb cbs -> _ IH]; intros w; [done|].
  simpl. destruct (IH (fadeOut 0 w)) as (Ew & En & Enil & Eop).
  rewrite fadeOut_warnings in Ew. rewrite fadeOut_now in En.
  split; [done|]. split; [done|]. split; [done|].
  intros _ Hn. destruct (fadeOut_opacity w Hn) as [Hn' Hop].
  destruct cbs as [|cb' cbs'].
  - by rewrite Enil.
  - by apply Eop.
Qed.

Lemma fade_fired_later w w' :
  warnings (page w') = warnings (page w) ->
  (now (page w) <= now (page w'))%Z ->
  fade_fired w -> fade_fired w'.
Proof.
  intros Ew Hn (t & msg & tl & msgl & Hin & Hl & Hdue & Hlt).
  exists t, msg, tl, msgl. rewrite Ew. repeat split; try done. lia.
Qed.

Lemma timeouts_fade_state w :
  installed w -> fade_state w ->
  fade_state
    (run_timeouts run_callback (on_page (fun p => set_now (now p + 1)%Z p) w)).
Proof.
  intros H (Hp & Htext & Hiff).
  split; [by apply timeouts_fades_pending|]. split.
  { apply (timeouts_from_tick (fun w => notice_text w = last_message w));
      try done.
    intros w1 _ E. unfold last_message.
    by rewrite fadeOut_notice_text, fadeOut_warnings. }
  unfold run_timeouts. cbv zeta. set (w1 := on_page _ w).
  set (due := filter _ (timeouts (page w1))).
  set (w2 := on_page (set_timeouts _) w1).
  assert (Forall (fun cb => cb = FadeOut 0) due.*2) as Hdue.
  { apply (due_timeouts_fade _ w1). by apply installed_stable_page. }
  destruct (dispatch_fades due.*2 w2 Hdue) as (Ew & En & Enil & Eop).
  set (w3 := dispatch run_callback due.*2 w2) in *. clearbody w3.
  assert (warnings (page w3) = warnings (page w)) as Ew3 by exact Ew.
  assert (now (page w3) = now (page w) + 1)%Z as En3 by exact En.
  destruct Hp as [Hq Ht].
  destruct (decide (due = [])) as [Hnil|Hne].
  - assert (w3 = w2) as -> by (apply Enil; by rewrite Hnil).
    change (notice_opacity w2) with (notice_opacity w). rewrite Hiff.
    split; [apply fade_fired_later; [done|simpl; lia]|].
    intros (t & msg & tl & msgl & Hin & Hl & Hd & Hlt).
    exists t, msg, tl, msgl. repeat split; try done.
    destruct (decide (t + FADE_DELAY <= now (page w))%Z) as [|Hlate]; [done|].
    exfalso. assert (((t + FADE_DELAY)%Z, FadeOut 0) ∈ due) as Hin'.
    { subst due. apply list_elem_of_filter. split; [exact Hd|].
      change (timeouts (page w1)) with (timeouts (page w)). rewrite Hq.
      apply (list_elem_of_fmap_2 fade_of _ (t, msg)).
      apply list_elem_of_filter. split; [simpl; lia|exact Hin]. }
    rewrite Hnil in Hin'. by apply not_elem_of_nil in Hin'.
  - destruct due as [|[D cb] due'] eqn:Edue; [done|].
    assert ((D, cb) ∈ filter (fun e : Z * Callback => (e.1 <= now (page w1))%Z)
                       (timeouts (page w1))) as Hin.
    { fold due. rewrite Edue. apply list_elem_of_here. }
    apply list_elem_of_filter in Hin as [HD Hin].
    change (timeouts (page w1)) with (timeouts (page w)) in Hin.
    rewrite Hq in Hin. apply list_elem_of_fmap in Hin as ([t msg] & [= -> ->] & Hrec).
    apply list_elem_of_filter in Hrec as [Hrec Hin]. simpl in HD, Hrec.
    assert (exists tl msgl, last (warnings (page w)) = Some (tl, msgl))
      as (tl & msgl & Hl).
    { destruct (last (warnings (page w))) as [[tl msgl]|] eqn:El; [by eauto|].
      apply last_None in El. rewrite El in Hin. by apply not_elem_of_nil in Hin. }
    assert (tl <= now (page w))%Z as Htl.
    { rewrite Forall_forall in Ht. apply (Ht (tl, msgl)).
      by apply last_Some_elem_of. }
    split; intros _.
    + exists t, msg, tl, msgl. rewrite Ew3, En3. repeat split; try done; lia.
    + apply Eop; [done|].
      change (notice w2) with (notice w). unfold notice_text, last_message in Htext.
      rewrite Hl in Htext. by destruct (notice w).
Qed.

Lemma showWarning_fade_state msg w :
  installed w -> fade_state w -> fade_state (showWarning 0 msg w).
Proof.
  intros H (Hp & Htext & Hiff).
  split; [by apply showWarning_fades_pending|]. split.
  { rewrite showWarning_notice_text by done. unfold last_message.
    by rewrite showWarning_warnings, last_snoc by done. }
  split.
  - intros Hop. by apply showWarning_notice_opacity in Hop.
  - intros (t & msg' & tl & msgl & Hin & Hl & Hd & Hlt). exfalso.
    rewrite showWarning_warnings in Hin, Hl by done.
    rewrite showWarning_now in Hd. rewrite last_snoc in Hl.
    injection Hl as <- <-. destruct Hp as [_ Ht].
    apply elem_of_app in Hin as [Hin|Hin].
    + rewrite Forall_forall in Ht. specialize (Ht _ Hin). simpl in Ht.
      unfold FADE_DELAY in *. lia.
    + apply list_elem_of_singleton in Hin as [= -> ->]. unfold FADE_DELAY in *. lia.
Qed.

Lemma on_closure_fade_state f w :
  (forall m, cheatAlert (f m) = cheatAlert m) ->
  fade_state w -> fade_state (on_closure 0 f w).
Proof.
  intros Hf (Hp & Htext & Hiff). split; [done|].
  unfold notice_text, notice_opacity. rewrite on_closure_notice by done.
  by split.
Qed.

Lemma run_fade_state evs w :
  installed w -> fade_state w -> fade_state (browser_run evs w).
Proof.
  apply (run_clock_invariant fade_state); try done.
  - apply millisecond_from_parts; try done.
    + apply timeouts_fade_state.
    + apply on_closure_fade_state.
    + apply showWarning_fade_state.
  - apply on_closure_fade_state.
  - apply showWarning_fade_state.
Qed.

Lemma load_fade_state w : pristine w -> fade_state (load w).
Proof.
  intros Hw. split; [by apply load_fades_pending|].
  destruct Hw as [Hg Hf Ha Hv Hb Ht Hi Hc]. destruct w as [p cl]. simpl in *.
  subst cl.
  unfold load, notice_text, notice_opacity, notice, last_message, fade_fired.
  simpl. rewrite Hf. simpl. rewrite Hg. split; [done|]. split; [done|].
  intros (t & msg & tl & msgl & Hin & _). by apply not_elem_of_nil in Hin.
Qed.

(** X4.  When the notice is faded.  In every reachable state its opacity is
    "0" exactly when the fade of some warning has come due after the latest
    warning was shown: some warning is at least 4000 ms old and less than
    4000 ms older than the latest one.  In particular, once 4000 ms have
    passed since the latest warning the notice is faded, whatever happened
    before; and a notice is faded early only by the timer of a warning
    shown less than 4000 ms before the latest. *)
Theorem notice_faded_iff_a_fade_ran_since_the_last_warning
    (w0 : World Monitor) (evs : list Event) :
  pristine w0 ->
  let w := browser_run (Inject :: evs) w0 in
  (notice_opacity w = Some "0" <-> fade_fired w)
  /\ (forall tl msgl,
        last (warnings (page w)) = Some (tl, msgl) ->
        (tl + 4000 <= now (page w))%Z ->
        notice_opacity w = Some "0")
  /\ (forall tl msgl,
        last (warnings (page w)) = Some (tl, msgl) ->
        (now (page w) < tl + 4000)%Z ->
        notice_opacity w = Some "0" ->
        exists t msg,
          (t, msg) ∈ warnings (page w)
          /\ (tl - 4000 < t <= now (page w) - 4000)%Z).
Proof.
  intros Hw0 w.
  assert (fade_state w) as (_ & _ & Hiff).
  { subst w. rewrite run_cons. change (browser_step Inject w0) with (load w0).
    apply run_fade_state; [by apply load_installed|by apply load_fade_state]. }
  split; [done|]. split.
  - intros tl msgl Hl Hold. apply Hiff. exists tl, msgl, tl, msgl.
    split; [by apply last_Some_elem_of|]. unfold FADE_DELAY. split; [done|lia].
  - intros tl msgl Hl _ Hop. apply Hiff in Hop
      as (t & msg & tl' & msgl' & Hin & Hl' & Hd & Hlt).
    rewrite Hl in Hl'. injection Hl' as <- <-.
    exists t, msg. unfold FADE_DELAY in *. split; [done|lia].
Qed.

Lemma notice_faded_iff_a_fade_ran_since_the_last_warning_witness :
  pristine blank /\
  notice_opacity (browser_run
    [Inject; Blur; Elapse 1000; Blur; Elapse 2000; Blur; Elapse 4000] blank)
  = Some "0".
Proof.
  assert (pristine blank) as Hb by (constructor; reflexivity).
  split; [exact Hb|].
  refine (proj1 (proj2 (notice_faded_iff_a_fade_ran_since_the_last_warning blank
    [Blur; Elapse 1000; Blur; Elapse 2000; Blur; Elapse 4000] Hb))
    3000%Z MSG_FOCUS _ _); vm_compute; [reflexivity|discriminate].
Defined.

(** ** The flag [warningShown] *)

(** The flag is set exactly when the counter is positive. *)
Lemma showWarning_flag_counter msg w :
  installed w ->
  warningShown (monitor (showWarning 0 msg w)) = warningShown (monitor w)
  /\ counter (showWarning 0 msg w) = counter w.
Proof.
  intros H. unfold counter. by rewrite showWarning_monitor.
Qed.

Lemma run_flag_counter evs w :
  installed w ->
  (0 <= counter w)%Z /\ warningShown (monitor w) = (0 <? counter w)%Z ->
  (0 <= counter (browser_run evs w))%Z
  /\ warningShown (monitor (browser_run evs w)) = (0 <? counter (browser_run evs w))%Z.
Proof.
  apply (run_invariant
    (fun w => (0 <= counter w)%Z /\ warningShown (monitor w) = (0 <? counter w)%Z)).
  - intros w1 w2 E. unfold counter. by rewrite (monitor_view _ _ E).
  - intros w1 _. unfold counter. by rewrite fadeOut_monitor.
  - intros w1 H1 HP. unfold devtoolsPoll. destruct (_ || _).
    + destruct (closures w1 !! 0) as [m|] eqn:Hm; [|done].
      destruct (negb (devtoolsOpen m)); [|done].
      destruct (showWarning_flag_counter MSG_DEVTOOLS
                  (on_closure 0 (set_devtoolsOpen true) w1)) as [-> ->];
        [by apply on_closure_installed|].
      shape H1. exact HP.
    + shape H1. exact HP.
  - intros w1 H1 [Hc Hf]. unfold onVisibilityChange.
    destruct (hidden (page w1)); [|done].
    destruct (showWarning_flag_counter MSG_TAB
                (on_closure 0 (set_warningShown true)
                   (on_closure 0 incr_tabSwitchCount w1))) as [-> ->];
      [by do 2 (apply on_closure_installed; [done|])|].
    shape H1. unfold counter, monitor in *. simpl in *.
    split; [lia|]. symmetry. apply Z.ltb_lt. lia.
  - intros w1 H1 [Hc Hf]. unfold onBlur. cbv zeta.
    destruct (showWarning_flag_counter MSG_FOCUS
                (on_closure 0 (set_warningShown true)
                   (on_closure 0 incr_tabSwitchCount
                      (on_page (console_log "Window lost focus") w1))))
      as [-> ->].
    { do 2 (apply on_closure_installed; [done|]). by apply console_log_installed. }
    shape H1. unfold counter, monitor in *. simpl in *.
    split; [lia|]. symmetry. apply Z.ltb_lt. lia.
Qed.

Lemma existsb_suspicious evs :
  existsb suspicious evs = (0 <? Z.of_nat (length (List.filter suspicious evs)))%Z.
Proof.
  induction evs as [|e evs IH]; [done|]. simpl.
  destruct (suspicious e); simpl; [|done].
  symmetry. apply Z.ltb_lt. lia.
Qed.

(** X9.  What [warningShown] holds: it is set by the first counted event and
    never cleared, so in every reachable state it is true exactly when the
    counter is positive, that is, when a change to hidden or a blur has
    happened since load.  A devtools warning does not set it. *)
Theorem warningShown_iff_counter_positive (w0 : World Monitor) (evs : list Event) :
  pristine w0 ->
  let w := browser_run (Inject :: evs) w0 in
  warningShown (monitor w) = (0 <? counter w)%Z
  /\ warningShown (monitor w) = existsb suspicious evs
  /\ forall d, warningShown (monitor (poll_at d w)) = warningShown (monitor w).
Proof.
  intros Hw0 w. pose proof (load_installed _ Hw0) as Hl.
  assert (installed w) as Hw by (by apply injected_installed).
  assert (counter w = Z.of_nat (length (List.filter suspicious evs))) as Hc.
  { subst w. rewrite run_cons. change (browser_step Inject w0) with (load w0).
    by rewrite run_counter, load_counter. }
  assert (warningShown (monitor w) = (0 <? counter w)%Z) as Hf.
  { subst w. rewrite run_cons. change (browser_step Inject w0) with (load w0).
    apply run_flag_counter; [done|]. rewrite load_counter by done.
    split; [done|]. destruct Hw0 as [Hg Hf Ha Hv Hb Ht Hi Hcl].
    destruct w0 as [p cl]. simpl in *. subst cl. unfold load, monitor. simpl.
    by rewrite Hf. }
  split; [done|]. split; [by rewrite Hf, Hc, existsb_suspicious|].
  intros d. clearbody w. clear Hw0 Hl Hc Hf.
  unfold poll_at, devtoolsPoll. cbn. destruct (_ || _).
  - shape Hw. cbn. destruct (devtoolsOpen m); [done|]. cbn.
    match goal with |- context [showWarning 0 ?msg ?w1] =>
      destruct (showWarning_flag_counter msg w1) as [-> _]
    end; [|done].
    apply (on_closure_installed (set_devtoolsOpen true)); [done|].
    by apply installed_stable_page.
  - shape Hw. done.
Qed.

Lemma warningShown_iff_counter_positive_witness :
  pristine blank /\
  warningShown (monitor (browser_run
    [Inject; Resize 1500 1000 800 720; Elapse 3000] blank)) = false.
Proof.
  assert (pristine blank) as Hb by (constructor; reflexivity).
  split; [exact Hb|].
  exact (proj1 (proj2 (warningShown_iff_counter_positive blank
    [Resize 1500 1000 800 720; Elapse 3000] Hb))).
Defined.
